(** * Flag composition and variable binding of the Clang ninja toolchain

    A shallow embedding of [ClangToolchain] (clang.py): the flag composers
    ([make_targetarchflags], [make_carchflags], [make_cconfigflags], ...),
    the variable binders ([cc_variables], [ar_variables], [link_variables])
    and the platform specialisation pass ([build_toolchain]).

    Python strings are [string], flag lists are [list string], a value that
    may be [None] is an [option], a [dict] with string keys is a [gmap].
    Calls into collaborators that live outside clang.py (the Android NDK
    helper object, the base [Toolchain] class, the [os] module) are taken as
    parameters; those that look a table up by architecture may raise, so
    they return [option] and the composers that call them run in the
    option monad ([None] = the exception propagates to the caller). *)

From Stdlib Require Import Ascii.
From stdpp Require Import base option list strings gmap.

(** ** Collaborators *)

(** [self.target]: only the two platform predicates are ever asked. *)
Record Platform := {
  is_windows : bool;
  is_android : bool
}.

(** [self.android]: the NDK helper object (android.py). *)
Record Android := {
  hostarchname : string;
  make_gcc_toolchain_path : string → option string;
  make_sysroot_path : string → option string;
  make_gcc_bin_path : string → option string
}.

(** The [os] module: [os.sep] is fixed by the flavour of the host,
    [os.path.join(a, *p)] is library code and stays abstract. *)
Inductive os_flavour := posix | nt.

Record OsModule := {
  os_name : os_flavour;
  os_path_join : string → list string → string
}.

Definition os_sep (os : OsModule) : string :=
  match os_name os with
  | posix => "/"
  | nt => "\"
  end.

(** ** Toolchain state *)

(** The attributes of [self] that the modelled methods read or write.
    [includepaths] and [libpaths] are constructor arguments and may be
    [None]; [path_escape] and [libpath] come from the base class. *)
Record ClangToolchain := {
  target : Platform;
  android : Android;
  path_escape : string → string;
  libpath : string;
  toolchain : string;
  includepaths : option (list string);
  libpaths : option (list string);
  ccompiler : string;
  archiver : string;
  linker : string;
  cccmd : string;
  linkcmd : string;
  cflags : list string;
  linkflags : list string;
  oslibs : list string
}.

(** ** Path and library helpers *)

Definition make_includepaths (self : ClangToolchain)
    (includepaths : option (list string)) : list string :=
  match includepaths with
  | Some paths => (λ path, "-I" +:+ path_escape self path) <$> paths
  | None => []
  end.

Definition make_libpaths (self : ClangToolchain)
    (libpaths : option (list string)) : list string :=
  match libpaths with
  | Some paths =>
      if is_windows (target self)
      then (λ path, "-Xlinker /LIBPATH:" +:+ path_escape self path) <$> paths
      else (λ path, "-L" +:+ path_escape self path) <$> paths
  | None => []
  end.

Definition make_libs (libs : option (list string)) : list string :=
  match libs with
  | Some libs => (λ lib, "-l" +:+ lib) <$> libs
  | None => []
  end.

(** ** Flag composers *)

Definition make_targetarchflags (self : ClangToolchain)
    (arch targettype : string) : option (list string) :=
  let flags := [] in
  if is_android (target self) then
    let flags :=
      if bool_decide (arch = "x86") then
        (flags ++ ["-target"; "i686-none-linux-android"])
          ++ ["-march=i686"; "-mtune=intel"; "-mssse3"; "-mfpmath=sse"; "-m32"]
      else if bool_decide (arch = "x86-64") then
        (flags ++ ["-target"; "x86_64-none-linux-android"])
          ++ ["-march=x86-64"; "-msse4.2"; "-mpopcnt"; "-m64"; "-mtune=intel"]
      else if bool_decide (arch = "arm6") then
        (flags ++ ["-target"; "armv5te-none-linux-androideabi"])
          ++ ["-march=armv5te"; "-mtune=xscale"; "-msoft-float"; "-marm"]
      else if bool_decide (arch = "arm7") then
        (flags ++ ["-target"; "armv7-none-linux-androideabi"])
          ++ ["-march=armv7-a"; "-mhard-float"; "-mfpu=vfpv3-d16"; "-mfpu=neon";
              "-D_NDK_MATH_NO_SOFTFP=1"; "-marm"]
      else if bool_decide (arch = "arm64") then
        flags ++ ["-target"; "aarch64-none-linux-android"]
      else if bool_decide (arch = "mips") then
        flags ++ ["-target"; "mipsel-none-linux-android"]
      else if bool_decide (arch = "mips64") then
        flags ++ ["-target"; "mips64el-none-linux-android"]
      else flags in
    gcc_toolchain ← make_gcc_toolchain_path (android self) arch;
    Some (flags ++ ["-gcc-toolchain"; gcc_toolchain])
  else Some flags.

Definition make_carchflags (self : ClangToolchain)
    (arch targettype : string) : option (list string) :=
  let flags := [] in
  let flags :=
    if bool_decide (targettype = "sharedlib")
    then flags ++ ["-DBUILD_DYNAMIC_LINK=1"] else flags in
  if is_android (target self) then
    targetarchflags ← make_targetarchflags self arch targettype;
    Some (flags ++ targetarchflags)
  else Some flags.

Definition make_cconfigflags (config targettype : string) : list string :=
  let flags := [] in
  if bool_decide (config = "debug") then
    flags ++ ["-DBUILD_DEBUG=1"; "-g"]
  else if bool_decide (config = "release") then
    flags ++ ["-DBUILD_RELEASE=1"; "-O3"; "-g"; "-funroll-loops"]
  else if bool_decide (config = "profile") then
    flags ++ ["-DBUILD_PROFILE=1"; "-O3"; "-g"; "-funroll-loops"]
  else if bool_decide (config = "deploy") then
    flags ++ ["-DBUILD_DEPLOY=1"; "-O3"; "-g"; "-funroll-loops"]
  else flags.

Definition make_ararchflags (arch targettype : string) : list string :=
  let flags := [] in flags.

Definition make_arconfigflags (config targettype : string) : list string :=
  let flags := [] in flags.

Definition make_linkarchflags (self : ClangToolchain)
    (arch targettype : string) : option (list string) :=
  let flags := [] in
  if is_android (target self) then
    targetarchflags ← make_targetarchflags self arch targettype;
    let flags := flags ++ targetarchflags in
    Some (if bool_decide (arch = "arm7")
          then flags ++ ["-Wl,--no-warn-mismatch"; "-Wl,--fix-cortex-a8"]
          else flags)
  else Some flags.

Definition make_linkconfigflags (self : ClangToolchain)
    (config targettype : string) : list string :=
  let flags := [] in
  if is_windows (target self) then
    if bool_decide (targettype = "sharedlib") then
      flags ++ ["-Xlinker"; "/DLL"]
    else if bool_decide (targettype = "bin") then
      flags ++ ["-Xlinker"; "/SUBSYSTEM:CONSOLE"]
    else flags
  else flags.

Definition make_linkarchlibs (self : ClangToolchain)
    (arch targettype : string) : list string :=
  let archlibs := [] in
  if is_android (target self) then
    let archlibs :=
      if bool_decide (arch = "arm7")
      then archlibs ++ ["m_hard"] else archlibs ++ ["m"] in
    archlibs ++ ["gcc"; "android"]
  else archlibs.

Definition make_configlibpaths (os : OsModule) (self : ClangToolchain)
    (config arch : string) : list string :=
  let libpaths :=
    [ libpath self;
      os_path_join os (libpath self) [config];
      os_path_join os (libpath self) [config; arch] ] in
  make_libpaths self (Some libpaths).

(** ** Variable binders *)

(** The value bound to a variable on a build edge: an ordered flag list
    or a scalar string (a path). *)
Inductive value :=
  | FlagList (flags : list string)
  | Scalar (s : string).

(** The caller's per-edge variable map.  Only the keys ["includepaths"]
    and ["libs"] are read; their values are lists of strings or [None]. *)
Abbreviation variable_map := (gmap string (option (list string))).

Definition cc_variables (self : ClangToolchain)
    (config arch targettype : string) (variables : variable_map)
    : option (list (string * value)) :=
  let localvariables := [] in
  let localvariables :=
    match variables !! "includepaths" with
    | Some paths =>
        let moreincludepaths := make_includepaths self paths in
        if negb (bool_decide (moreincludepaths = []))
        then localvariables ++ [("moreincludepaths", FlagList moreincludepaths)]
        else localvariables
    | None => localvariables
    end in
  carchflags ← make_carchflags self arch targettype;
  let localvariables :=
    if bool_decide (carchflags ≠ [])
    then localvariables ++ [("carchflags", FlagList carchflags)]
    else localvariables in
  let cconfigflags := make_cconfigflags config targettype in
  let localvariables :=
    if bool_decide (cconfigflags ≠ [])
    then localvariables ++ [("cconfigflags", FlagList cconfigflags)]
    else localvariables in
  if is_android (target self) then
    sysroot ← make_sysroot_path (android self) arch;
    Some (localvariables ++ [("sysroot", Scalar sysroot)])
  else Some localvariables.

Definition ar_variables (self : ClangToolchain)
    (config arch targettype : string) (variables : variable_map)
    : option (list (string * value)) :=
  let localvariables := [] in
  let ararchflags := make_ararchflags arch targettype in
  let localvariables :=
    if bool_decide (ararchflags ≠ [])
    then localvariables ++ [("ararchflags", FlagList ararchflags)]
    else localvariables in
  let arconfigflags := make_arconfigflags config targettype in
  let localvariables :=
    if bool_decide (arconfigflags ≠ [])
    then localvariables ++ [("arconfigflags", FlagList arconfigflags)]
    else localvariables in
  if is_android (target self) then
    gcc_bin ← make_gcc_bin_path (android self) arch;
    Some (localvariables ++ [("toolchain", Scalar gcc_bin)])
  else Some localvariables.

Definition link_variables (os : OsModule) (self : ClangToolchain)
    (config arch targettype : string) (variables : variable_map)
    : option (list (string * value)) :=
  let localvariables := [] in
  linkarchflags ← make_linkarchflags self arch targettype;
  let localvariables :=
    if bool_decide (linkarchflags ≠ [])
    then localvariables ++ [("linkarchflags", FlagList linkarchflags)]
    else localvariables in
  let linkconfigflags := make_linkconfigflags self config targettype in
  let localvariables :=
    if bool_decide (linkconfigflags ≠ [])
    then localvariables ++ [("linkconfigflags", FlagList linkconfigflags)]
    else localvariables in
  let localvariables :=
    match variables !! "libs" with
    | Some libs =>
        let libvar := make_libs libs in
        if bool_decide (libvar ≠ [])
        then localvariables ++ [("libs", FlagList libvar)]
        else localvariables
    | None => localvariables
    end in
  let localvariables :=
    localvariables
      ++ [("configlibpaths", FlagList (make_configlibpaths os self config arch))] in
  localvariables ←
    (if is_android (target self) then
       sysroot ← make_sysroot_path (android self) arch;
       Some (localvariables ++ [("sysroot", Scalar sysroot)])
     else Some localvariables);
  let archlibs := make_linkarchlibs self arch targettype in
  Some (if bool_decide (archlibs ≠ [])
        then localvariables ++ [("archlibs", FlagList (make_libs (Some archlibs)))]
        else localvariables).

(** ** Platform specialisation *)

(** [s.startswith(prefix)] and [s.endswith(suffix)]. *)
Fixpoint startswith (s prefix : string) : bool :=
  match prefix, s with
  | EmptyString, _ => true
  | String c prefix', String d s' => bool_decide (c = d) && startswith s' prefix'
  | String _ _, EmptyString => false
  end.

Fixpoint endswith (s suffix : string) : bool :=
  bool_decide (s = suffix)
  || match s with
     | EmptyString => false
     | String _ s' => endswith s' suffix
     end.

Definition build_windows_toolchain (self : ClangToolchain) : ClangToolchain :=
  {| target := target self; android := android self;
     path_escape := path_escape self; libpath := libpath self;
     toolchain := toolchain self;
     includepaths := includepaths self; libpaths := libpaths self;
     ccompiler := ccompiler self; archiver := archiver self;
     linker := linker self;
     cccmd := cccmd self; linkcmd := linkcmd self;
     cflags := cflags self ++ ["-U__STRICT_ANSI__"; "-Wno-reserved-id-macro"];
     linkflags := linkflags self;
     oslibs := ["kernel32"; "user32"; "shell32"; "advapi32"] |}.

(** [self.includepaths += [...]] raises when the constructor was given
    [None] for the include paths. *)
Definition build_android_toolchain (os : OsModule) (self : ClangToolchain)
    : option ClangToolchain :=
  paths ← includepaths self;
  Some
  {| target := target self; android := android self;
     path_escape := path_escape self; libpath := libpath self;
     toolchain :=
       os_path_join os "$ndk"
         ["toolchains"; "llvm"; "prebuilt"; hostarchname (android self); "bin"; ""];
     includepaths :=
       Some (paths
               ++ [os_path_join os "$ndk" ["sources"; "android"; "native_app_glue"];
                   os_path_join os "$ndk" ["sources"; "android"; "cpufeatures"]]);
     libpaths := libpaths self;
     ccompiler := ccompiler self; archiver := "ar";
     linker := linker self;
     cccmd := cccmd self +:+ " --sysroot=$sysroot";
     linkcmd := linkcmd self +:+ " -shared -Wl,-soname,$liblinkname --sysroot=$sysroot";
     cflags :=
       cflags self
         ++ ["-fpic"; "-ffunction-sections"; "-funwind-tables"; "-fstack-protector";
             "-fomit-frame-pointer"; "-no-canonical-prefixes"; "-Wa,--noexecstack"];
     linkflags :=
       linkflags self
         ++ ["-no-canonical-prefixes"; "-Wl,--no-undefined"; "-Wl,-z,noexecstack";
             "-Wl,-z,relro"; "-Wl,-z,now"];
     oslibs := oslibs self ++ ["log"] |}.

Definition set_toolchain (prefix : string) (self : ClangToolchain)
    : ClangToolchain :=
  {| target := target self; android := android self;
     path_escape := path_escape self; libpath := libpath self;
     toolchain := prefix;
     includepaths := includepaths self; libpaths := libpaths self;
     ccompiler := ccompiler self; archiver := archiver self;
     linker := linker self;
     cccmd := cccmd self; linkcmd := linkcmd self;
     cflags := cflags self; linkflags := linkflags self;
     oslibs := oslibs self |}.

(** The platform branch of [build_toolchain], run after the base class. *)
Definition specialize_platform (os : OsModule) (self : ClangToolchain)
    : option ClangToolchain :=
  if is_windows (target self) then Some (build_windows_toolchain self)
  else if is_android (target self) then build_android_toolchain os self
  else Some self.

(** The last statement of [build_toolchain]. *)
Definition normalize_toolchain (os : OsModule) (self : ClangToolchain)
    : ClangToolchain :=
  if negb (bool_decide (toolchain self = ""))
     && negb (endswith (toolchain self) "/")
     && negb (endswith (toolchain self) "\")
  then set_toolchain (toolchain self +:+ os_sep os) self
  else self.

Section build.
(** [super(ClangToolchain, self).build_toolchain()]: the base class is
    not part of clang.py; it may update any attribute and may raise. *)
Variable Toolchain_build_toolchain : ClangToolchain → option ClangToolchain.
Variable os : OsModule.

Definition build_toolchain (self : ClangToolchain) : option ClangToolchain :=
  self ← Toolchain_build_toolchain self;
  self ← specialize_platform os self;
  Some (normalize_toolchain os self).
End build.

(** ** Path-separator vocabulary *)

Definition is_sep (c : ascii) : bool :=
  bool_decide (c = "/"%char) || bool_decide (c = "\"%char).

(** Number of separator characters at the end of a string. *)
Fixpoint trailing_seps (s : string) : nat :=
  match s with
  | EmptyString => 0
  | String c s' =>
      let n := trailing_seps s' in
      if bool_decide (n = String.length s') && is_sep c then S n else n
  end.

(** ** Concrete collaborators *)

(** [posixpath.join] of CPython, the [os.path.join] of a POSIX host. *)
Fixpoint posixpath_join (a : string) (p : list string) : string :=
  match p with
  | [] => a
  | b :: p =>
      let path :=
        if startswith b "/" then b
        else if bool_decide (a = "") || endswith a "/" then a +:+ b
        else a +:+ "/" +:+ b in
      posixpath_join path p
  end.

Definition posix_os : OsModule :=
  {| os_name := posix; os_path_join := posixpath_join |}.

(** A sample NDK helper laid out like the NDK tree; it answers for every
    architecture name. *)
Definition ndk_android : Android :=
  {| hostarchname := "linux-x86_64";
     make_gcc_toolchain_path arch :=
       Some ("$ndk/toolchains/" +:+ arch +:+ "-4.9/prebuilt/linux-x86_64");
     make_sysroot_path arch := Some ("$ndk/platforms/android-21/arch-" +:+ arch);
     make_gcc_bin_path arch :=
       Some ("$ndk/toolchains/" +:+ arch +:+ "-4.9/prebuilt/linux-x86_64/bin/") |}.

Definition generic_platform : Platform :=
  {| is_windows := false; is_android := false |}.
Definition windows_platform : Platform :=
  {| is_windows := true; is_android := false |}.
Definition android_platform : Platform :=
  {| is_windows := false; is_android := true |}.

(** A toolchain as [initialize] leaves it just before [build_toolchain],
    for project ["demo"], with the given target and path prefix. *)
Definition sample_toolchain (t : Platform) (prefix : string) : ClangToolchain :=
  {| target := t; android := ndk_android;
     path_escape := λ path, path; libpath := "lib";
     toolchain := prefix;
     includepaths := Some []; libpaths := Some [];
     ccompiler := "clang"; archiver := "llvm-ar"; linker := "clang";
     cccmd := "$toolchain$cc -MMD -MT $out -MF $out.d -I. $includepaths $moreincludepaths $cflags $carchflags $cconfigflags -c $in -o $out";
     linkcmd := "$toolchain$cc $libpaths $configlibpaths $linkflags $linkarchflags $linkconfigflags -o $out $in $libs $archlibs $oslibs";
     cflags := ["-std=c11"; "-DDEMO_COMPILE=1"; "-W"; "-Werror"; "-pedantic";
                "-Wall"; "-Weverything"; "-Wno-padded";
                "-Wno-documentation-unknown-command"; "-funit-at-a-time";
                "-fstrict-aliasing"; "-fno-math-errno"; "-ffinite-math-only";
                "-funsafe-math-optimizations"; "-fno-trapping-math"; "-ffast-math"];
     linkflags := []; oslibs := [] |}.

(** ** The build-graph writer *)

(** The writer is a collaborator outside clang.py; it is modelled by the
    sequence of calls made on it.  [writer.build] receives one input file
    from the compile builder and a list of files from the others. *)
Inductive files :=
  | OneFile (path : string)
  | Files (paths : list string).

Inductive writer_call :=
  | WVariable (key : string) (v : value)
  | WRule (name command : string) (depfile deps : option string)
      (description : string)
  | WNewline
  | WBuild (outputs rule : string) (inputs : files)
      (implicit : option (list string)) (variables : list (string * value)).

Abbreviation Writer := (list writer_call).

(** The preferences: a mapping keyed by toolchain name whose entries map
    a preference name to its value. *)
Abbreviation preferences := (gmap string (gmap string string)).

Definition name : string := "clang".

Section base_class.
(** Methods and attributes of the base [Toolchain] class, which is not
    part of clang.py.  The methods may update any attribute and may raise;
    [implicit_deps] returns a list or [None]. *)
Variable Toolchain_parse_prefs : ClangToolchain → preferences → option ClangToolchain.
Variable Toolchain_write_variables : ClangToolchain → Writer → option Writer.
Variable Toolchain_write_rules : ClangToolchain → Writer → option Writer.
Variable implicit_deps :
  ClangToolchain → string → variable_map → option (option (list string)).
(** [self.arcmd], [self.ccdepfile], [self.ccdeps] and [self.arflags], set
    by [initialize]. *)
Variable arcmd ccdepfile ccdeps : ClangToolchain → string.
Variable arflags : ClangToolchain → list string.

Definition parse_prefs (self : ClangToolchain) (prefs : preferences)
    : option ClangToolchain :=
  self ← Toolchain_parse_prefs self prefs;
  Some match prefs !! "clang" with
       | Some clangprefs =>
           match clangprefs !! "toolchain" with
           | Some prefix => set_toolchain prefix self
           | None => self
           end
       | None => self
       end.

Definition write_variables (self : ClangToolchain) (writer : Writer)
    : option Writer :=
  writer ← Toolchain_write_variables self writer;
  Some (writer ++
    [ WVariable "toolchain" (Scalar (toolchain self));
      WVariable "cc" (Scalar (ccompiler self));
      WVariable "ar" (Scalar (archiver self));
      WVariable "link" (Scalar (linker self));
      WVariable "includepaths"
        (FlagList (make_includepaths self (includepaths self)));
      WVariable "moreincludepaths" (Scalar "");
      WVariable "cflags" (FlagList (cflags self));
      WVariable "carchflags" (Scalar "");
      WVariable "cconfigflags" (Scalar "");
      WVariable "arflags" (FlagList (arflags self));
      WVariable "ararchflags" (Scalar "");
      WVariable "arconfigflags" (Scalar "");
      WVariable "linkflags" (FlagList (linkflags self));
      WVariable "linkarchflags" (Scalar "");
      WVariable "linkconfigflags" (Scalar "");
      WVariable "libs" (Scalar "");
      WVariable "libpaths" (FlagList (make_libpaths self (libpaths self)));
      WVariable "configlibpaths" (Scalar "");
      WVariable "archlibs" (Scalar "");
      WVariable "oslibs" (FlagList (make_libs (Some (oslibs self))));
      WNewline ]).

Definition write_rules (self : ClangToolchain) (writer : Writer)
    : option Writer :=
  writer ← Toolchain_write_rules self writer;
  Some (writer ++
    [ WRule "cc" (cccmd self) (Some (ccdepfile self)) (Some (ccdeps self))
        "CC $in";
      WRule "ar" (arcmd self) None None "LIB $out";
      WRule "link" (linkcmd self) None None "LINK $out";
      WRule "so" (linkcmd self) None None "SO $out";
      WNewline ]).

Definition builder_cc (self : ClangToolchain) (writer : Writer)
    (config arch targettype infile outfile : string) (variables : variable_map)
    : option Writer :=
  implicit ← implicit_deps self config variables;
  localvariables ← cc_variables self config arch targettype variables;
  Some (writer ++ [WBuild outfile "cc" (OneFile infile) implicit localvariables]).

Definition builder_lib (self : ClangToolchain) (writer : Writer)
    (config arch targettype : string) (infiles : list string) (outfile : string)
    (variables : variable_map) : option Writer :=
  implicit ← implicit_deps self config variables;
  localvariables ← ar_variables self config arch targettype variables;
  Some (writer ++ [WBuild outfile "ar" (Files infiles) implicit localvariables]).

Section builders.
Variable os : OsModule.

Definition builder_sharedlib (self : ClangToolchain) (writer : Writer)
    (config arch targettype : string) (infiles : list string) (outfile : string)
    (variables : variable_map) : option Writer :=
  implicit ← implicit_deps self config variables;
  localvariables ← link_variables os self config arch targettype variables;
  Some (writer ++ [WBuild outfile "so" (Files infiles) implicit localvariables]).

Definition builder_bin (self : ClangToolchain) (writer : Writer)
    (config arch targettype : string) (infiles : list string) (outfile : string)
    (variables : variable_map) : option Writer :=
  implicit ← implicit_deps self config variables;
  localvariables ← link_variables os self config arch targettype variables;
  Some (writer ++ [WBuild outfile "link" (Files infiles) implicit localvariables]).
End builders.
End base_class.

(** The names a writer log declares. *)
Definition variable_names (writer : Writer) : list string :=
  omap (λ call, match call with WVariable key _ => Some key | _ => None end)
    writer.

Definition rule_names (writer : Writer) : list string :=
  omap (λ call, match call with WRule rule _ _ _ _ => Some rule | _ => None end)
    writer.

(** Sample arguments for the writer-facing methods: a caller variable
    map, preferences that name a prefix, and base-class methods that do
    nothing. *)
Definition sample_variables : variable_map :=
  {[ "includepaths" := Some ["ext/include"]; "libs" := Some ["foundation"] ]}.

Definition sample_preferences : preferences :=
  {[ "clang" := {[ "toolchain" := "/opt/llvm" ]} ]}.

Definition idle_writer_method (self : ClangToolchain) (writer : Writer)
    : option Writer := Some writer.

Definition idle_parse_prefs (self : ClangToolchain) (prefs : preferences)
    : option ClangToolchain := Some self.

Definition no_implicit_deps (self : ClangToolchain) (config : string)
    (variables : variable_map) : option (option (list string)) := Some None.

(** ** Vocabulary of the statements *)

(** The architecture names [make_targetarchflags] has a branch for. *)
Definition recognized_archs : list string :=
  ["x86"; "x86-64"; "arm6"; "arm7"; "arm64"; "mips"; "mips64"].

(** The configuration names [make_cconfigflags] has a branch for. *)
Definition known_configs : list string :=
  ["debug"; "release"; "profile"; "deploy"].

(** The switch [make_libpaths] puts in front of a library search path. *)
Definition libpath_switch (self : ClangToolchain) : string :=
  if is_windows (target self) then "-Xlinker /LIBPATH:" else "-L".

(** The entry of a flag category in a binder result [vars]: the name
    [key] is bound exactly when the category's [composed] list is not
    empty, and then to the flag list [bound]. *)
Definition category_bound (vars : list (string * value)) (key : string)
    (composed bound : list string) : Prop :=
  (key ∈ vars.*1 ↔ composed ≠ [])
  ∧ ∀ v, (key, v) ∈ vars → v = FlagList bound.

(** On Android every NDK helper a binder calls answers for [arch]. *)
Definition helpers_answer (self : ClangToolchain) (arch : string) : Prop :=
  is_android (target self) = true →
  is_Some (make_gcc_toolchain_path (android self) arch)
  ∧ is_Some (make_sysroot_path (android self) arch)
  ∧ is_Some (make_gcc_bin_path (android self) arch).

(** * Properties *)

(** Case analysis on every string comparison left in the goal. *)
Ltac case_strings :=
  repeat case_bool_decide; subst; simpl in *; try done.

(** Closes [x ∉ [a; b; ...]] when [x] differs from every listed element. *)
Ltac solve_not_elem :=
  repeat (apply not_elem_of_cons; split; [done|]); apply not_elem_of_nil.

(** Splits [x ∉ [a; b; ...]] in the context into its disequalities. *)
Ltac split_not_elem H :=
  repeat (let Hne := fresh "Hne" in apply not_elem_of_cons in H as [Hne H]).

(** ** Architecture flags *)

Lemma make_targetarchflags_generic self arch targettype :
  is_android (target self) = false →
  make_targetarchflags self arch targettype = Some [].
Proof. unfold make_targetarchflags. by intros ->. Qed.

Lemma make_targetarchflags_raises self arch targettype :
  is_android (target self) = true →
  make_gcc_toolchain_path (android self) arch = None →
  make_targetarchflags self arch targettype = None.
Proof. unfold make_targetarchflags. by intros -> ->. Qed.

Lemma make_targetarchflags_is_Some self arch targettype :
  is_Some (make_targetarchflags self arch targettype)
  ↔ is_android (target self) = false
    ∨ is_Some (make_gcc_toolchain_path (android self) arch).
Proof.
  unfold make_targetarchflags.
  destruct (is_android (target self)); simpl.
  - destruct (make_gcc_toolchain_path (android self) arch) as [p|]; simpl.
    + split; eauto.
    + split; [by intros [? ?]|]. intros [?|[? ?]]; done.
  - split; eauto.
Qed.

(** On Android the result always ends with the GCC-toolchain pair, and no
    token before that pair depends on the helper. *)
Lemma make_targetarchflags_android self arch targettype flags :
  is_android (target self) = true →
  make_targetarchflags self arch targettype = Some flags →
  ∃ tuning p,
    make_gcc_toolchain_path (android self) arch = Some p
    ∧ flags = tuning ++ ["-gcc-toolchain"; p]
    ∧ ("-DBUILD_DYNAMIC_LINK=1" ∉ tuning)
    ∧ ("-Wl,--no-warn-mismatch" ∉ tuning)
    ∧ ("-Wl,--fix-cortex-a8" ∉ tuning).
Proof.
  unfold make_targetarchflags. intros ->.
  destruct (make_gcc_toolchain_path (android self) arch) as [p|]; [|done].
  simpl. intros [= <-]. eexists _, p. split; [done|]. split; [done|].
  case_strings; repeat split; solve_not_elem.
Qed.

(** C1 (as amended): off Android the architecture flags are the empty
    list for every architecture and nothing is raised, so a non-empty
    result occurs only on Android; on Android an architecture outside
    the recognised set gets no target triple and no tuning flag, yet the
    result is not empty: it is exactly the GCC-toolchain pair built from
    the helper's path, and an exception of the helper propagates. *)
Theorem make_targetarchflags_unrecognized self arch targettype :
  (is_android (target self) = false →
     make_targetarchflags self arch targettype = Some [])
  ∧ (arch ∉ recognized_archs →
     is_android (target self) = true →
     make_targetarchflags self arch targettype
     = (λ p, ["-gcc-toolchain"; p])
         <$> make_gcc_toolchain_path (android self) arch).
Proof.
  split; [apply make_targetarchflags_generic|].
  unfold recognized_archs, make_targetarchflags. intros Harch ->.
  split_not_elem Harch. by rewrite !bool_decide_eq_false_2 by done.
Qed.

Lemma make_targetarchflags_unrecognized_witness :
("riscv64" ∉ recognized_archs)
  ∧ is_android (target (sample_toolchain android_platform "")) = true
  ∧ make_targetarchflags (sample_toolchain android_platform "") "riscv64" "bin"
    = Some ["-gcc-toolchain"; "$ndk/toolchains/riscv64-4.9/prebuilt/linux-x86_64"]
  ∧ make_targetarchflags (sample_toolchain generic_platform "") "riscv64" "bin"
    = Some [].
Proof.
  assert (Harch : "riscv64" ∉ recognized_archs)
    by (unfold recognized_archs; solve_not_elem).
  split; [exact Harch|]. split; [reflexivity|]. split.
  - exact (proj2 (make_targetarchflags_unrecognized
                    (sample_toolchain android_platform "") "riscv64" "bin")
             Harch eq_refl).
  - exact (proj1 (make_targetarchflags_unrecognized
                    (sample_toolchain generic_platform "") "riscv64" "bin")
             eq_refl).
Defined.

(** C1 (as stated) fails: on Android the unrecognised architecture
    ["riscv64"] does not yield the empty list. *)
Lemma unrecognized_arch_on_android_nonempty :
("riscv64" ∉ recognized_archs)
  ∧ make_targetarchflags (sample_toolchain android_platform "") "riscv64" "bin"
    = Some ["-gcc-toolchain"; "$ndk/toolchains/riscv64-4.9/prebuilt/linux-x86_64"]
  ∧ make_targetarchflags (sample_toolchain android_platform "") "riscv64" "bin"
    ≠ Some [].
Proof.
  split; [unfold recognized_archs; solve_not_elem|]. split; [reflexivity|done].
Qed.

(** Whatever the helper does, the Android result is never the empty list. *)
Lemma make_targetarchflags_android_nonempty self arch targettype :
  is_android (target self) = true →
  make_targetarchflags self arch targettype ≠ Some [].
Proof.
  intros Handroid Hflags.
  destruct (make_targetarchflags_android _ _ _ _ Handroid Hflags)
    as (tuning & p & _ & Heq & _).
  by destruct tuning.
Qed.

(** C3: on Android, [arch = "arm7"] composes the target-triple pair, the
    six tuning flags in source order and then the GCC-toolchain pair
    whose path is the one the NDK helper returns for ["arm7"]. *)
Theorem make_targetarchflags_arm7 self targettype path :
  is_android (target self) = true →
  make_gcc_toolchain_path (android self) "arm7" = Some path →
  make_targetarchflags self "arm7" targettype
  = Some ["-target"; "armv7-none-linux-androideabi";
          "-march=armv7-a"; "-mhard-float"; "-mfpu=vfpv3-d16"; "-mfpu=neon";
          "-D_NDK_MATH_NO_SOFTFP=1"; "-marm";
          "-gcc-toolchain"; path].
Proof. unfold make_targetarchflags. by intros -> ->. Qed.

Lemma make_targetarchflags_arm7_witness :
  is_android (target (sample_toolchain android_platform "")) = true
  ∧ make_gcc_toolchain_path (android (sample_toolchain android_platform "")) "arm7"
    = Some "$ndk/toolchains/arm7-4.9/prebuilt/linux-x86_64"
  ∧ make_targetarchflags (sample_toolchain android_platform "") "arm7" "lib"
    = Some ["-target"; "armv7-none-linux-androideabi";
            "-march=armv7-a"; "-mhard-float"; "-mfpu=vfpv3-d16"; "-mfpu=neon";
            "-D_NDK_MATH_NO_SOFTFP=1"; "-marm";
            "-gcc-toolchain"; "$ndk/toolchains/arm7-4.9/prebuilt/linux-x86_64"].
Proof.
  split; [reflexivity|]. split; [reflexivity|].
  apply (make_targetarchflags_arm7 (sample_toolchain android_platform "") "lib");
    reflexivity.
Defined.

(** ** Configuration flags *)

(** C4 (as stated) fails for ["debug"]: the result is the define and the
    single flag ["-g"], not a define followed by a pair of flags, and no
    token of it sets an optimisation level. *)
Lemma make_cconfigflags_debug_no_pair :
  make_cconfigflags "debug" "bin" = ["-DBUILD_DEBUG=1"; "-g"]
  ∧ length (make_cconfigflags "debug" "bin") = 2
  ∧ (¬ ∃ define noopt symbols,
        make_cconfigflags "debug" "bin" = [define; noopt; symbols])
  ∧ Forall (λ flag, startswith flag "-O" = false)
      (make_cconfigflags "debug" "bin").
Proof.
  split; [reflexivity|]. split; [reflexivity|]. split.
  - by intros (define & noopt & symbols & ?).
  - by repeat constructor.
Qed.

(** C4 (as amended): ["debug"] maps to exactly its define followed by the
    symbols flag ["-g"] (no optimisation flag); ["release"], ["profile"]
    and ["deploy"] map to their own define followed by ["-O3"], ["-g"],
    ["-funroll-loops"]; the define of one configuration occurs in the
    flags of no other; every other configuration maps to the empty list. *)
Theorem make_cconfigflags_table targettype :
  make_cconfigflags "debug" targettype = ["-DBUILD_DEBUG=1"; "-g"]
  ∧ make_cconfigflags "release" targettype
    = ["-DBUILD_RELEASE=1"; "-O3"; "-g"; "-funroll-loops"]
  ∧ make_cconfigflags "profile" targettype
    = ["-DBUILD_PROFILE=1"; "-O3"; "-g"; "-funroll-loops"]
  ∧ make_cconfigflags "deploy" targettype
    = ["-DBUILD_DEPLOY=1"; "-O3"; "-g"; "-funroll-loops"]
  ∧ (∀ config other define targettype',
       config ∈ known_configs → other ∈ known_configs → config ≠ other →
       head (make_cconfigflags config targettype) = Some define →
       define ∉ make_cconfigflags other targettype')
  ∧ (∀ config, config ∉ known_configs →
       make_cconfigflags config targettype = []).
Proof.
  do 4 (split; [reflexivity|]). split.
  - intros config other define targettype' Hconfig Hother Hne Hdefine.
    unfold known_configs in *.
    repeat (apply elem_of_cons in Hconfig as [->|Hconfig]);
      [..|by apply elem_of_nil in Hconfig];
      injection Hdefine as <-;
      (repeat (apply elem_of_cons in Hother as [->|Hother]);
        [..|by apply elem_of_nil in Hother]);
      try done; solve_not_elem.
  - intros config Hconfig. unfold known_configs, make_cconfigflags in *.
    split_not_elem Hconfig. by rewrite !bool_decide_eq_false_2 by done.
Qed.

Lemma make_cconfigflags_table_witness :
  "release" ∈ known_configs ∧ "debug" ∈ known_configs
  ∧ head (make_cconfigflags "release" "lib") = Some "-DBUILD_RELEASE=1"
  ∧ ("-DBUILD_RELEASE=1" ∉ make_cconfigflags "debug" "bin")
  ∧ ("fast" ∉ known_configs)
  ∧ make_cconfigflags "fast" "lib" = [].
Proof.
  assert (Hrelease : "release" ∈ known_configs)
    by (unfold known_configs; apply list_elem_of_lookup; by exists 1).
  assert (Hdebug : "debug" ∈ known_configs)
    by (unfold known_configs; apply list_elem_of_lookup; by exists 0).
  assert (Hfast : "fast" ∉ known_configs)
    by (unfold known_configs; solve_not_elem).
  destruct (make_cconfigflags_table "lib") as (_ & _ & _ & _ & Hdisjoint & Hother).
  split; [exact Hrelease|]. split; [exact Hdebug|]. split; [reflexivity|]. split.
  - apply (Hdisjoint "release" "debug" "-DBUILD_RELEASE=1" "bin");
      [exact Hrelease|exact Hdebug|done|reflexivity].
  - split; [exact Hfast|]. exact (Hother "fast" Hfast).
Defined.

(** ** Target-type flags *)

Lemma make_carchflags_is_Some self arch targettype :
  is_Some (make_carchflags self arch targettype)
  ↔ is_android (target self) = false
    ∨ is_Some (make_gcc_toolchain_path (android self) arch).
Proof.
  rewrite <-(make_targetarchflags_is_Some self arch targettype).
  unfold make_carchflags.
  destruct (is_android (target self)) eqn:Handroid; simpl.
  - destruct (make_targetarchflags self arch targettype); simpl;
      split; intros [? ?]; try done; by eexists.
  - rewrite make_targetarchflags_generic by done. split; by eexists.
Qed.

(** C5: provided the path the NDK helper returns is not itself the token
    ["-DBUILD_DYNAMIC_LINK=1"], the compile target-type flags contain that
    define exactly when [targettype = "sharedlib"], on every platform and
    for every architecture; the function returns whenever the helper
    does (always, off Android). *)
Theorem make_carchflags_dynamic_link self arch targettype :
  (∀ path, make_gcc_toolchain_path (android self) arch = Some path →
           path ≠ "-DBUILD_DYNAMIC_LINK=1") →
  (is_Some (make_carchflags self arch targettype)
   ↔ is_android (target self) = false
     ∨ is_Some (make_gcc_toolchain_path (android self) arch))
  ∧ (∀ flags, make_carchflags self arch targettype = Some flags →
       "-DBUILD_DYNAMIC_LINK=1" ∈ flags ↔ targettype = "sharedlib").
Proof.
  intros Hpath. split; [apply make_carchflags_is_Some|].
  intros flags. unfold make_carchflags.
  destruct (is_android (target self)) eqn:Handroid.
  - destruct (make_targetarchflags self arch targettype) as [archflags|] eqn:Harch;
      [|done].
    destruct (make_targetarchflags_android _ _ _ _ Handroid Harch)
      as (tuning & p & Hp & -> & Hdyn & _).
    simpl. intros [= <-]. specialize (Hpath p Hp).
    case_bool_decide as Htype; simpl.
    + split; [done|]. intros _. apply elem_of_cons. by left.
    + split; [|done]. intros Hin.
      apply elem_of_app in Hin as [Hin|Hin]; [done|].
      apply elem_of_cons in Hin as [?|Hin]; [done|].
      apply elem_of_cons in Hin as [?|Hin]; [by subst|].
      by apply elem_of_nil in Hin.
  - intros [= <-]. case_bool_decide as Htype; simpl.
    + split; [done|]. intros _. apply elem_of_cons. by left.
    + split; [|done]. intros Hin. by apply elem_of_nil in Hin.
Qed.

Lemma make_carchflags_dynamic_link_witness :
  (∀ path,
     make_gcc_toolchain_path (android (sample_toolchain android_platform "")) "arm64"
     = Some path → path ≠ "-DBUILD_DYNAMIC_LINK=1")
  ∧ make_carchflags (sample_toolchain android_platform "") "arm64" "sharedlib"
    = Some ["-DBUILD_DYNAMIC_LINK=1"; "-target"; "aarch64-none-linux-android";
            "-gcc-toolchain"; "$ndk/toolchains/arm64-4.9/prebuilt/linux-x86_64"]
  ∧ ("-DBUILD_DYNAMIC_LINK=1"
       ∈ ["-DBUILD_DYNAMIC_LINK=1"; "-target"; "aarch64-none-linux-android";
          "-gcc-toolchain"; "$ndk/toolchains/arm64-4.9/prebuilt/linux-x86_64"]
     ↔ "sharedlib" = "sharedlib").
Proof.
  assert (Hpath : ∀ path,
     make_gcc_toolchain_path (android (sample_toolchain android_platform "")) "arm64"
     = Some path → path ≠ "-DBUILD_DYNAMIC_LINK=1")
    by (intros path [= <-]; done).
  split; [exact Hpath|]. split; [reflexivity|].
  apply (proj2 (make_carchflags_dynamic_link
                  (sample_toolchain android_platform "") "arm64" "sharedlib" Hpath)).
  reflexivity.
Defined.

(** ** Link-time flags *)

(** C6: on Windows a shared-library link gets the DLL-emission pair and an
    executable link the console-subsystem pair; off Windows the link
    configuration flags are empty for every configuration and target type. *)
Theorem make_linkconfigflags_windows self config :
  (is_windows (target self) = true →
     make_linkconfigflags self config "sharedlib" = ["-Xlinker"; "/DLL"]
     ∧ make_linkconfigflags self config "bin" = ["-Xlinker"; "/SUBSYSTEM:CONSOLE"])
  ∧ (is_windows (target self) = false →
     ∀ targettype, make_linkconfigflags self config targettype = []).
Proof.
  unfold make_linkconfigflags. split.
  - by intros ->.
  - by intros ->.
Qed.

Lemma make_linkconfigflags_windows_witness :
  is_windows (target (sample_toolchain windows_platform "")) = true
  ∧ make_linkconfigflags (sample_toolchain windows_platform "") "release" "sharedlib"
    = ["-Xlinker"; "/DLL"]
  ∧ make_linkconfigflags (sample_toolchain windows_platform "") "release" "bin"
    = ["-Xlinker"; "/SUBSYSTEM:CONSOLE"]
  ∧ is_windows (target (sample_toolchain android_platform "")) = false
  ∧ make_linkconfigflags (sample_toolchain android_platform "") "release" "sharedlib"
    = [].
Proof.
  split; [reflexivity|].
  destruct (proj1 (make_linkconfigflags_windows
                     (sample_toolchain windows_platform "") "release") eq_refl)
    as [Hdll Hconsole].
  split; [exact Hdll|]. split; [exact Hconsole|]. split; [reflexivity|].
  exact (proj2 (make_linkconfigflags_windows
                  (sample_toolchain android_platform "") "release")
           eq_refl "sharedlib").
Defined.

Lemma make_linkarchflags_is_Some self arch targettype :
  is_Some (make_linkarchflags self arch targettype)
  ↔ is_android (target self) = false
    ∨ is_Some (make_gcc_toolchain_path (android self) arch).
Proof.
  rewrite <-(make_targetarchflags_is_Some self arch targettype).
  unfold make_linkarchflags.
  destruct (is_android (target self)) eqn:Handroid; simpl.
  - destruct (make_targetarchflags self arch targettype); simpl;
      split; intros [? ?]; try done; by eexists.
  - rewrite make_targetarchflags_generic by done. split; by eexists.
Qed.

(** C7: provided the path the NDK helper returns is neither of the two
    fix-up tokens, the link-time architecture flags on Android for
    ["arm7"] are the compile-time architecture flags followed by
    ["-Wl,--no-warn-mismatch"] and ["-Wl,--fix-cortex-a8"]; for every
    other architecture, and off Android, neither token is present.  The
    function returns whenever the helper does (always, off Android). *)
Theorem make_linkarchflags_fixups self arch targettype :
  (∀ path, make_gcc_toolchain_path (android self) arch = Some path →
           path ≠ "-Wl,--no-warn-mismatch" ∧ path ≠ "-Wl,--fix-cortex-a8") →
  (is_Some (make_linkarchflags self arch targettype)
   ↔ is_android (target self) = false
     ∨ is_Some (make_gcc_toolchain_path (android self) arch))
  ∧ (∀ flags, make_linkarchflags self arch targettype = Some flags →
       (is_android (target self) = true → arch = "arm7" →
          ∃ archflags,
            make_targetarchflags self arch targettype = Some archflags
            ∧ flags = archflags ++ ["-Wl,--no-warn-mismatch"; "-Wl,--fix-cortex-a8"])
       ∧ (is_android (target self) = false ∨ arch ≠ "arm7" →
          ("-Wl,--no-warn-mismatch" ∉ flags) ∧ ("-Wl,--fix-cortex-a8" ∉ flags))).
Proof.
  intros Hpath. split; [apply make_linkarchflags_is_Some|].
  intros flags. unfold make_linkarchflags.
  destruct (is_android (target self)) eqn:Handroid.
  - destruct (make_targetarchflags self arch targettype) as [archflags|] eqn:Harch;
      [|done].
    simpl. intros [= <-]. split.
    + intros _ ->. rewrite bool_decide_eq_true_2 by done. by exists archflags.
    + intros [?|Hne]; [done|]. rewrite bool_decide_eq_false_2 by done.
      destruct (make_targetarchflags_android _ _ _ _ Handroid Harch)
        as (tuning & p & Hp & -> & _ & Hwarn & Hfix).
      destruct (Hpath p Hp) as [Hp1 Hp2].
      split; (apply not_elem_of_app; split; [done|solve_not_elem]).
  - intros [= <-]. split; [done|]. intros _. split; apply not_elem_of_nil.
Qed.

Lemma make_linkarchflags_fixups_witness :
  (∀ path,
     make_gcc_toolchain_path (android (sample_toolchain android_platform "")) "arm7"
     = Some path →
     path ≠ "-Wl,--no-warn-mismatch" ∧ path ≠ "-Wl,--fix-cortex-a8")
  ∧ make_linkarchflags (sample_toolchain android_platform "") "arm7" "bin"
    = Some ["-target"; "armv7-none-linux-androideabi";
            "-march=armv7-a"; "-mhard-float"; "-mfpu=vfpv3-d16"; "-mfpu=neon";
            "-D_NDK_MATH_NO_SOFTFP=1"; "-marm";
            "-gcc-toolchain"; "$ndk/toolchains/arm7-4.9/prebuilt/linux-x86_64";
            "-Wl,--no-warn-mismatch"; "-Wl,--fix-cortex-a8"]
  ∧ ∃ archflags,
      make_targetarchflags (sample_toolchain android_platform "") "arm7" "bin"
      = Some archflags
      ∧ ["-target"; "armv7-none-linux-androideabi";
         "-march=armv7-a"; "-mhard-float"; "-mfpu=vfpv3-d16"; "-mfpu=neon";
         "-D_NDK_MATH_NO_SOFTFP=1"; "-marm";
         "-gcc-toolchain"; "$ndk/toolchains/arm7-4.9/prebuilt/linux-x86_64";
         "-Wl,--no-warn-mismatch"; "-Wl,--fix-cortex-a8"]
        = archflags ++ ["-Wl,--no-warn-mismatch"; "-Wl,--fix-cortex-a8"].
Proof.
  assert (Hpath : ∀ path,
     make_gcc_toolchain_path (android (sample_toolchain android_platform "")) "arm7"
     = Some path →
     path ≠ "-Wl,--no-warn-mismatch" ∧ path ≠ "-Wl,--fix-cortex-a8")
    by (intros path [= <-]; done).
  split; [exact Hpath|]. split; [reflexivity|].
  apply (proj2 (make_linkarchflags_fixups
                  (sample_toolchain android_platform "") "arm7" "bin" Hpath) _ eq_refl);
    reflexivity.
Defined.

(** C9: on Android the extra runtime libraries are a math library, [gcc]
    and the platform library [android], in that order; the math library
    is ["m_hard"] for ["arm7"] and ["m"] for every other architecture;
    off Android the list is empty. *)
Theorem make_linkarchlibs_android self arch targettype :
  (is_android (target self) = true →
     make_linkarchlibs self "arm7" targettype = ["m_hard"; "gcc"; "android"]
     ∧ (arch ≠ "arm7" →
        make_linkarchlibs self arch targettype = ["m"; "gcc"; "android"])
     ∧ make_linkarchlibs self arch targettype ≠ []
     ∧ "android" ∈ make_linkarchlibs self arch targettype)
  ∧ (is_android (target self) = false →
     make_linkarchlibs self arch targettype = []).
Proof.
  unfold make_linkarchlibs. split; intros ->; [|done].
  split; [done|]. split.
  - intros Hne. by rewrite bool_decide_eq_false_2 by done.
  - case_bool_decide; simpl; (split; [done|]);
      apply list_elem_of_lookup; by exists 2.
Qed.

Lemma make_linkarchlibs_android_witness :
  is_android (target (sample_toolchain android_platform "")) = true
  ∧ make_linkarchlibs (sample_toolchain android_platform "") "arm7" "bin"
    = ["m_hard"; "gcc"; "android"]
  ∧ "x86-64" ≠ "arm7"
  ∧ make_linkarchlibs (sample_toolchain android_platform "") "x86-64" "bin"
    = ["m"; "gcc"; "android"]
  ∧ is_android (target (sample_toolchain generic_platform "")) = false
  ∧ make_linkarchlibs (sample_toolchain generic_platform "") "x86-64" "bin" = [].
Proof.
  destruct (proj1 (make_linkarchlibs_android
                     (sample_toolchain android_platform "") "x86-64" "bin") eq_refl)
    as (Hhard & Hsoft & _).
  split; [reflexivity|]. split; [exact Hhard|].
  assert (Hne : "x86-64" ≠ "arm7") by done.
  split; [exact Hne|]. split; [exact (Hsoft Hne)|]. split; [reflexivity|].
  exact (proj2 (make_linkarchlibs_android
                  (sample_toolchain generic_platform "") "x86-64" "bin") eq_refl).
Defined.

(** ** Path and library helpers *)

(** C10: the three helpers return the empty list for [None]; for a list
    they return one token per element, at the same position, made of the
    switch (["-I"]; ["-L"], or ["-Xlinker /LIBPATH:"] on Windows; ["-l"])
    and the escaped path, respectively the library name. *)
Theorem path_helpers_total self :
  make_includepaths self None = []
  ∧ make_libpaths self None = []
  ∧ make_libs None = []
  ∧ ∀ elements : list string,
      length (make_includepaths self (Some elements)) = length elements
      ∧ length (make_libpaths self (Some elements)) = length elements
      ∧ length (make_libs (Some elements)) = length elements
      ∧ ∀ i : nat,
          make_includepaths self (Some elements) !! i
          = (λ path, "-I" +:+ path_escape self path) <$> elements !! i
          ∧ make_libpaths self (Some elements) !! i
            = (λ path, libpath_switch self +:+ path_escape self path)
                <$> elements !! i
          ∧ make_libs (Some elements) !! i
            = (λ lib, "-l" +:+ lib) <$> elements !! i.
Proof.
  do 3 (split; [reflexivity|]). intros elements.
  unfold make_includepaths, make_libpaths, make_libs, libpath_switch.
  destruct (is_windows (target self));
    rewrite !length_fmap; repeat split; intros; apply list_lookup_fmap.
Qed.

(** ** Variable binders *)

Lemma FlagList_nonempty flags : flags ≠ [] → FlagList flags ≠ FlagList [].
Proof. intros Hne [= ->]. done. Qed.

Lemma make_libs_nonempty libs : libs ≠ [] → make_libs (Some libs) ≠ [].
Proof. by destruct libs. Qed.

Lemma make_configlibpaths_nonempty os self config arch :
  make_configlibpaths os self config arch ≠ [].
Proof.
  unfold make_configlibpaths, make_libpaths.
  by destruct (is_windows (target self)).
Qed.

Lemma not_elem_of_bindings (vars : list (string * value)) name :
  Forall (λ binding, binding.2 ≠ FlagList []) vars →
  (name, FlagList []) ∉ vars.
Proof.
  intros Hall Hin. rewrite Forall_forall in Hall.
  by apply (Hall _ Hin).
Qed.

(** Closes [Forall P (l1 ++ [x1] ++ ...)] for the binders' results. *)
Ltac solve_bindings :=
  repeat (apply Forall_app; split);
  repeat (apply Forall_cons; split);
  try apply Forall_nil; simpl;
  try done;
  try (by apply FlagList_nonempty).

Lemma cc_variables_nonempty self config arch targettype
    (variables : variable_map) vars :
  cc_variables self config arch targettype variables = Some vars →
  Forall (λ binding, binding.2 ≠ FlagList []) vars.
Proof.
  unfold cc_variables.
  destruct (make_carchflags self arch targettype) as [carchflags|]; [|done].
  simpl.
  destruct (is_android (target self));
    [destruct (make_sysroot_path (android self) arch); [|done]|];
    simpl; intros [= <-];
    destruct (variables !! "includepaths");
    repeat case_bool_decide; simpl; solve_bindings.
Qed.

Lemma ar_variables_nonempty self config arch targettype
    (variables : variable_map) vars :
  ar_variables self config arch targettype variables = Some vars →
  Forall (λ binding, binding.2 ≠ FlagList []) vars.
Proof.
  unfold ar_variables.
  destruct (is_android (target self));
    [destruct (make_gcc_bin_path (android self) arch); [|done]|];
    simpl; intros [= <-]; solve_bindings.
Qed.

Lemma link_variables_nonempty os self config arch targettype
    (variables : variable_map) vars :
  link_variables os self config arch targettype variables = Some vars →
  Forall (λ binding, binding.2 ≠ FlagList []) vars.
Proof.
  unfold link_variables.
  destruct (make_linkarchflags self arch targettype) as [linkarchflags|];
    [|done].
  simpl.
  pose proof (make_configlibpaths_nonempty os self config arch) as Hconfig.
  destruct (is_android (target self));
    [destruct (make_sysroot_path (android self) arch); [|done]|];
    simpl; intros [= <-];
    destruct (variables !! "libs");
    repeat case_bool_decide; simpl; solve_bindings;
    by apply FlagList_nonempty, make_libs_nonempty.
Qed.

Lemma binders_return os self config arch targettype (variables : variable_map) :
  helpers_answer self arch →
  is_Some (cc_variables self config arch targettype variables)
  ∧ is_Some (ar_variables self config arch targettype variables)
  ∧ is_Some (link_variables os self config arch targettype variables).
Proof.
  unfold helpers_answer, cc_variables, ar_variables, link_variables,
    make_carchflags, make_linkarchflags, make_targetarchflags.
  destruct (is_android (target self)).
  - intros Hanswer.
    destruct (Hanswer eq_refl) as ([? ->] & [? ->] & [? ->]).
    simpl. repeat split; by eexists.
  - intros _. simpl. repeat split; by eexists.
Qed.

(** Decides a closed statement about lists of string literals. *)
Ltac decide_literals := apply (bool_decide_unpack _); by vm_compute.

(** Proves [category_bound] once every guard of the binder is decided. *)
Ltac solve_category :=
  unfold category_bound; split;
  [ split; intros ?;
    first [ done
          | decide_literals
          | exfalso;
            match goal with H : _ ∈ _ |- _ => revert H end; decide_literals ]
  | let v := fresh "v" in
    let Hin := fresh "Hin" in
    intros v Hin;
    repeat (let Heq := fresh "Heq" in
            apply elem_of_cons in Hin as [Heq|Hin]; [by simplify_eq|]);
    by apply elem_of_nil in Hin ].

Ltac solve_categories :=
  repeat match goal with |- category_bound _ _ _ _ ∧ _ => split end;
  solve_category.

Lemma cc_variables_categories self config arch targettype
    (variables : variable_map) vars :
  cc_variables self config arch targettype variables = Some vars →
  ∃ carchflags,
    make_carchflags self arch targettype = Some carchflags
    ∧ category_bound vars "moreincludepaths"
        (default [] (make_includepaths self <$> variables !! "includepaths"))
        (default [] (make_includepaths self <$> variables !! "includepaths"))
    ∧ category_bound vars "carchflags" carchflags carchflags
    ∧ category_bound vars "cconfigflags"
        (make_cconfigflags config targettype)
        (make_cconfigflags config targettype).
Proof.
  unfold cc_variables.
  destruct (make_carchflags self arch targettype) as [carchflags|]; [|done].
  simpl.
  destruct (is_android (target self));
    [destruct (make_sysroot_path (android self) arch); [|done]|];
    simpl; intros [= <-]; exists carchflags; (split; [done|]);
    destruct (variables !! "includepaths"); simpl;
    repeat case_bool_decide; simpl; solve_categories.
Qed.

Lemma ar_variables_categories self config arch targettype
    (variables : variable_map) vars :
  ar_variables self config arch targettype variables = Some vars →
  category_bound vars "ararchflags"
    (make_ararchflags arch targettype) (make_ararchflags arch targettype)
  ∧ category_bound vars "arconfigflags"
      (make_arconfigflags config targettype)
      (make_arconfigflags config targettype).
Proof.
  unfold ar_variables.
  destruct (is_android (target self));
    [destruct (make_gcc_bin_path (android self) arch); [|done]|];
    simpl; intros [= <-]; solve_categories.
Qed.

Lemma link_variables_categories os self config arch targettype
    (variables : variable_map) vars :
  link_variables os self config arch targettype variables = Some vars →
  ∃ linkarchflags,
    make_linkarchflags self arch targettype = Some linkarchflags
    ∧ category_bound vars "linkarchflags" linkarchflags linkarchflags
    ∧ category_bound vars "linkconfigflags"
        (make_linkconfigflags self config targettype)
        (make_linkconfigflags self config targettype)
    ∧ category_bound vars "libs"
        (default [] (make_libs <$> variables !! "libs"))
        (default [] (make_libs <$> variables !! "libs"))
    ∧ category_bound vars "configlibpaths"
        (make_configlibpaths os self config arch)
        (make_configlibpaths os self config arch)
    ∧ category_bound vars "archlibs"
        (make_linkarchlibs self arch targettype)
        (make_libs (Some (make_linkarchlibs self arch targettype))).
Proof.
  unfold link_variables.
  pose proof (make_configlibpaths_nonempty os self config arch) as Hconfig.
  destruct (make_linkarchflags self arch targettype) as [linkarchflags|];
    [|done].
  simpl.
  destruct (is_android (target self));
    [destruct (make_sysroot_path (android self) arch); [|done]|];
    simpl; intros [= <-]; exists linkarchflags; (split; [done|]);
    destruct (variables !! "libs"); simpl;
    repeat case_bool_decide; simpl; solve_categories.
Qed.

(** C2: whatever the configuration, architecture, target type and caller
    variable map, every flag category of a binder ([moreincludepaths],
    [carchflags], [cconfigflags]; [ararchflags], [arconfigflags];
    [linkarchflags], [linkconfigflags], [libs], [configlibpaths],
    [archlibs]) has an entry under its name exactly when the list composed
    for it is not empty, and the entry then holds that list: a category
    that composes to nothing is absent from the result, under any value.
    Hence no binder result holds an entry whose value is an empty flag
    list; and the binders do return whenever the NDK helpers answer
    (always, off Android). *)
Theorem binders_omit_empty os self config arch targettype
    (variables : variable_map) :
  (helpers_answer self arch →
     is_Some (cc_variables self config arch targettype variables)
     ∧ is_Some (ar_variables self config arch targettype variables)
     ∧ is_Some (link_variables os self config arch targettype variables))
  ∧ (∀ vars name,
      cc_variables self config arch targettype variables = Some vars
      ∨ ar_variables self config arch targettype variables = Some vars
      ∨ link_variables os self config arch targettype variables = Some vars →
      (name, FlagList []) ∉ vars)
  ∧ (∀ vars,
      cc_variables self config arch targettype variables = Some vars →
      ∃ carchflags,
        make_carchflags self arch targettype = Some carchflags
        ∧ category_bound vars "moreincludepaths"
            (default [] (make_includepaths self <$> variables !! "includepaths"))
            (default [] (make_includepaths self <$> variables !! "includepaths"))
        ∧ category_bound vars "carchflags" carchflags carchflags
        ∧ category_bound vars "cconfigflags"
            (make_cconfigflags config targettype)
            (make_cconfigflags config targettype))
  ∧ (∀ vars,
      ar_variables self config arch targettype variables = Some vars →
      category_bound vars "ararchflags"
        (make_ararchflags arch targettype) (make_ararchflags arch targettype)
      ∧ category_bound vars "arconfigflags"
          (make_arconfigflags config targettype)
          (make_arconfigflags config targettype))
  ∧ (∀ vars,
      link_variables os self config arch targettype variables = Some vars →
      ∃ linkarchflags,
        make_linkarchflags self arch targettype = Some linkarchflags
        ∧ category_bound vars "linkarchflags" linkarchflags linkarchflags
        ∧ category_bound vars "linkconfigflags"
            (make_linkconfigflags self config targettype)
            (make_linkconfigflags self config targettype)
        ∧ category_bound vars "libs"
            (default [] (make_libs <$> variables !! "libs"))
            (default [] (make_libs <$> variables !! "libs"))
        ∧ category_bound vars "configlibpaths"
            (make_configlibpaths os self config arch)
            (make_configlibpaths os self config arch)
        ∧ category_bound vars "archlibs"
            (make_linkarchlibs self arch targettype)
            (make_libs (Some (make_linkarchlibs self arch targettype)))).
Proof.
  split; [apply binders_return|]. split.
  - intros vars name [Hvars|[Hvars|Hvars]]; apply not_elem_of_bindings.
    + by eapply cc_variables_nonempty.
    + by eapply ar_variables_nonempty.
    + by eapply link_variables_nonempty.
  - split; [intros vars; apply cc_variables_categories|].
    split; [intros vars; apply ar_variables_categories|].
    intros vars; apply link_variables_categories.
Qed.

Lemma binders_omit_empty_witness :
  link_variables posix_os (sample_toolchain generic_platform "")
    "debug" "x86-64" "lib" {[ "libs" := Some [] ]}
  = Some [("configlibpaths",
           FlagList ["-Llib"; "-Llib/debug"; "-Llib/debug/x86-64"])]
  ∧ (("libs", FlagList [])
       ∉ [("configlibpaths",
           FlagList ["-Llib"; "-Llib/debug"; "-Llib/debug/x86-64"])])
  ∧ ("libs"
       ∉ [("configlibpaths",
           FlagList ["-Llib"; "-Llib/debug"; "-Llib/debug/x86-64"])].*1)
  ∧ ("linkconfigflags"
       ∉ [("configlibpaths",
           FlagList ["-Llib"; "-Llib/debug"; "-Llib/debug/x86-64"])].*1).
Proof.
  assert (Hvars :
    link_variables posix_os (sample_toolchain generic_platform "")
      "debug" "x86-64" "lib" {[ "libs" := Some [] ]}
    = Some [("configlibpaths",
             FlagList ["-Llib"; "-Llib/debug"; "-Llib/debug/x86-64"])])
    by (vm_compute; reflexivity).
  destruct (binders_omit_empty posix_os (sample_toolchain generic_platform "")
              "debug" "x86-64" "lib" {[ "libs" := Some [] ]})
    as (_ & Hvalue & _ & _ & Hlink).
  destruct (Hlink _ Hvars) as (linkarchflags & _ & _ & Hconfig & Hlibs & _).
  split; [exact Hvars|]. split.
  - apply Hvalue. right; right. exact Hvars.
  - split.
    + intros Hin. apply (proj1 Hlibs) in Hin. apply Hin. vm_compute; reflexivity.
    + intros Hin. apply (proj1 Hconfig) in Hin. apply Hin. reflexivity.
Defined.

(** ** Toolchain path prefix *)

Lemma string_length_snoc s c :
  String.length (s +:+ String c "") = S (String.length s).
Proof.
  induction s as [|d s IH]; [done|].
  change (String d s +:+ String c "") with (String d (s +:+ String c "")).
  cbn [String.length]. by rewrite IH.
Qed.

Lemma trailing_seps_le s : trailing_seps s ≤ String.length s.
Proof.
  induction s as [|c s IH]; simpl; [lia|].
  destruct (bool_decide _ && is_sep c); lia.
Qed.

(** Appending a separator lengthens the run of trailing separators. *)
Lemma trailing_seps_snoc s c :
  is_sep c = true →
  trailing_seps (s +:+ String c "") = S (trailing_seps s).
Proof.
  intros Hc. induction s as [|d s IH].
  - change ("" +:+ String c "") with (String c "").
    cbn [trailing_seps String.length]. by rewrite Hc.
  - change (String d s +:+ String c "") with (String d (s +:+ String c "")).
    cbn [trailing_seps]. rewrite IH, string_length_snoc. cbv zeta.
    repeat case_bool_decide; try lia; by destruct (is_sep d).
Qed.

(** [endswith] sees a trailing separator exactly when the run is not empty. *)
Lemma endswith_sep_trailing s :
  endswith s "/" || endswith s "\" = true ↔ 1 ≤ trailing_seps s.
Proof.
  induction s as [|c s IH]; [cbn; split; [done|lia]|].
  cbn [endswith trailing_seps]. cbv zeta.
  destruct s as [|d s].
  - cbn. unfold is_sep.
    repeat case_bool_decide; simplify_eq; cbn; split; done || lia.
  - rewrite !(bool_decide_eq_false_2 (String c (String d s) = _)) by done.
    rewrite !orb_false_l, IH.
    pose proof (trailing_seps_le (String d s)) as Hle.
    destruct (bool_decide _ && is_sep c) eqn:Hrun; [|done].
    apply andb_true_iff in Hrun as [Hfull%bool_decide_eq_true _].
    cbn [String.length] in *. lia.
Qed.

Lemma os_sep_is_sep os : ∃ c, os_sep os = String c "" ∧ is_sep c = true.
Proof. unfold os_sep. destruct (os_name os); by eexists. Qed.

(** What the final statement of [build_toolchain] does to the prefix. *)
Lemma normalize_toolchain_cases os self :
  (toolchain self = "" ∧ toolchain (normalize_toolchain os self) = "")
  ∨ (1 ≤ trailing_seps (toolchain self)
     ∧ toolchain (normalize_toolchain os self) = toolchain self)
  ∨ (toolchain self ≠ "" ∧ trailing_seps (toolchain self) = 0
     ∧ toolchain (normalize_toolchain os self) = toolchain self +:+ os_sep os
     ∧ trailing_seps (toolchain (normalize_toolchain os self)) = 1).
Proof.
  unfold normalize_toolchain.
  pose proof (endswith_sep_trailing (toolchain self)) as Hends.
  case_bool_decide as Hempty; simpl; [by left|].
  destruct (endswith (toolchain self) "/"); simpl;
    [right; left; split; [apply Hends|]; done|].
  destruct (endswith (toolchain self) "\"); simpl;
    [right; left; split; [apply Hends|]; done|].
  right; right. simpl in Hends.
  assert (trailing_seps (toolchain self) = 0) as Hzero.
  { destruct (trailing_seps (toolchain self)); [done|].
    assert (false = true) by (apply Hends; lia). done. }
  destruct (os_sep_is_sep os) as (c & -> & Hc).
  by rewrite trailing_seps_snoc, Hzero.
Qed.

Lemma specialize_platform_toolchain os base mid :
  specialize_platform os base = Some mid →
  if is_windows (target base) then toolchain mid = toolchain base
  else if is_android (target base) then
    toolchain mid
    = os_path_join os "$ndk"
        ["toolchains"; "llvm"; "prebuilt"; hostarchname (android base); "bin"; ""]
  else toolchain mid = toolchain base.
Proof.
  unfold specialize_platform, build_android_toolchain.
  destruct (is_windows (target base)); [by intros [= <-]|].
  destruct (is_android (target base)); [|by intros [= <-]].
  destruct (includepaths base); [|done]. by intros [= <-].
Qed.

(** [build_toolchain] returns exactly when the base class does and, on an
    Android target, the toolchain was constructed with a list of include
    paths. *)
Lemma build_toolchain_is_Some super os self :
  is_Some (build_toolchain super os self)
  ↔ ∃ base, super self = Some base
            ∧ (is_windows (target base) = true
               ∨ is_android (target base) = false
               ∨ is_Some (includepaths base)).
Proof.
  unfold build_toolchain, specialize_platform, build_android_toolchain.
  destruct (super self) as [base|]; simpl;
    [|split; [by intros [? ?]|by intros (? & ? & _)]].
  split.
  - intros Hsome. exists base. split; [done|].
    destruct (is_windows (target base)); [auto|].
    destruct (is_android (target base)); [|auto].
    destruct (includepaths base); [right; right; by eexists|].
    by destruct Hsome.
  - intros (? & [= <-] & Hcond).
    destruct (is_windows (target base)); [by eexists|].
    destruct (is_android (target base)); [|by eexists].
    destruct (includepaths base); [by eexists|].
    destruct Hcond as [?|[?|[? ?]]]; done.
Qed.

(** C8 (as stated) fails: a prefix taken from the preferences that
    already ends with two separators passes through [build_toolchain]
    unchanged and so does not end with exactly one. *)
Lemma build_toolchain_keeps_double_separator :
  ∃ self',
    build_toolchain Some posix_os (sample_toolchain generic_platform "/opt/llvm//")
    = Some self'
    ∧ toolchain self' = "/opt/llvm//"
    ∧ toolchain self' ≠ ""
    ∧ trailing_seps (toolchain self') = 2.
Proof. eexists. split; [reflexivity|]. by repeat split. Qed.

(** C8 (as amended): when [build_toolchain] completes, the prefix left by
    the base class and the platform branch (the NDK path on Android, the
    prior prefix otherwise) is normalised as follows: an empty prefix
    stays empty; a prefix that already ends with ['/'] or ['\'] is kept
    as it is, however many separators it ends with; any other prefix gets
    [os.sep] appended and then ends with exactly one separator.  So a
    non-empty final prefix ends with at least one separator. *)
Theorem build_toolchain_prefix super os self self' :
  build_toolchain super os self = Some self' →
  (toolchain self' = "" ∨ 1 ≤ trailing_seps (toolchain self'))
  ∧ ∃ base mid,
      super self = Some base
      ∧ specialize_platform os base = Some mid
      ∧ (if is_windows (target base) then toolchain mid = toolchain base
         else if is_android (target base) then
           toolchain mid
           = os_path_join os "$ndk"
               ["toolchains"; "llvm"; "prebuilt"; hostarchname (android base);
                "bin"; ""]
         else toolchain mid = toolchain base)
      ∧ ((toolchain mid = "" ∧ toolchain self' = "")
         ∨ (1 ≤ trailing_seps (toolchain mid) ∧ toolchain self' = toolchain mid)
         ∨ (toolchain mid ≠ "" ∧ trailing_seps (toolchain mid) = 0
            ∧ toolchain self' = toolchain mid +:+ os_sep os
            ∧ trailing_seps (toolchain self') = 1)).
Proof.
  unfold build_toolchain.
  destruct (super self) as [base|] eqn:Hbase; [|done]. simpl.
  destruct (specialize_platform os base) as [mid|] eqn:Hmid; [|done]. simpl.
  intros [= <-].
  pose proof (normalize_toolchain_cases os mid) as Hcases.
  split.
  - destruct Hcases as [[_ ->]|[[? ->]|(_ & _ & _ & ->)]]; auto.
  - exists base, mid. split; [done|]. split; [done|].
    split; [by apply specialize_platform_toolchain|done].
Qed.

Lemma build_toolchain_prefix_witness :
  build_toolchain Some posix_os (sample_toolchain generic_platform "/opt/llvm")
  = Some (set_toolchain "/opt/llvm/" (sample_toolchain generic_platform "/opt/llvm"))
  ∧ (toolchain
       (set_toolchain "/opt/llvm/" (sample_toolchain generic_platform "/opt/llvm"))
     = ""
     ∨ 1 ≤ trailing_seps
             (toolchain
                (set_toolchain "/opt/llvm/"
                   (sample_toolchain generic_platform "/opt/llvm")))).
Proof.
  split; [reflexivity|].
  apply (proj1 (build_toolchain_prefix Some posix_os
                  (sample_toolchain generic_platform "/opt/llvm") _ eq_refl)).
Defined.

(** On a POSIX host the Android branch resolves the prefix inside the NDK
    tree; it already ends with one separator and is left as it is. *)
Example build_toolchain_android_posix :
  toolchain <$> build_toolchain Some posix_os (sample_toolchain android_platform "")
  = Some "$ndk/toolchains/llvm/prebuilt/linux-x86_64/bin/".
Proof. reflexivity. Qed.

(** * Further properties of the binders, the specialisation pass and the
      writer-facing methods *)

Set Warnings "-clear-no-such-hyp".

Ltac elem_cases :=
  rewrite ?elem_of_app, ?elem_of_cons, ?elem_of_nil.

(** Decides membership in, or duplicate-freeness of, a list of literals. *)
Ltac solve_decidable := apply (bool_decide_unpack _); by vm_compute.

(** Goes through the entries of a binder result that [H] ranges over. *)
Ltac each_binding H :=
  repeat (apply elem_of_cons in H as [[= -> ->]|H]);
  [..|by apply elem_of_nil in H].

(** Case analysis on the condition of the [if] left in the goal. *)
Ltac case_if :=
  match goal with |- context [if ?b then _ else _] => destruct b end.

(** ** Variable binders *)

(** X1: an archive edge never gets a flag-list override, whatever the
    configuration, architecture, target type and caller variables: off
    Android [ar_variables] binds nothing, on Android it binds only the
    scalar [toolchain] path of the NDK helper. *)
Theorem ar_variables_no_flags self config arch targettype
    (variables : variable_map) vars :
  ar_variables self config arch targettype variables = Some vars →
  (∀ key flags, (key, FlagList flags) ∉ vars)
  ∧ (is_android (target self) = false → vars = [])
  ∧ (is_android (target self) = true →
     ∃ gcc_bin, make_gcc_bin_path (android self) arch = Some gcc_bin
                ∧ vars = [("toolchain", Scalar gcc_bin)]).
Proof.
  unfold ar_variables.
  destruct (is_android (target self)); simpl.
  - destruct (make_gcc_bin_path (android self) arch) as [gcc_bin|]; [|done].
    simpl. intros [= <-]. split; [|split; [done|by eexists]].
    intros key flags Hin. apply list_elem_of_singleton in Hin. done.
  - intros [= <-]. split; [|split; [done|done]].
    intros key flags Hin. by apply elem_of_nil in Hin.
Qed.

Lemma ar_variables_no_flags_witness :
  ar_variables (sample_toolchain android_platform "") "release" "arm7" "lib"
    sample_variables
  = Some [("toolchain",
           Scalar "$ndk/toolchains/arm7-4.9/prebuilt/linux-x86_64/bin/")]
  ∧ ∀ key flags,
      (key, FlagList flags)
      ∉ [("toolchain",
          Scalar "$ndk/toolchains/arm7-4.9/prebuilt/linux-x86_64/bin/")].
Proof.
  split; [reflexivity|].
  apply (ar_variables_no_flags (sample_toolchain android_platform "")
           "release" "arm7" "lib" sample_variables).
  reflexivity.
Defined.

(** X2: a binder never binds the same variable name twice. *)
Theorem binders_bind_once os self config arch targettype
    (variables : variable_map) vars :
  cc_variables self config arch targettype variables = Some vars
  ∨ ar_variables self config arch targettype variables = Some vars
  ∨ link_variables os self config arch targettype variables = Some vars →
  NoDup vars.*1.
Proof.
  intros [Hvars|[Hvars|Hvars]]; revert Hvars.
  - unfold cc_variables.
    destruct (make_carchflags self arch targettype); [|done]. simpl.
    destruct (is_android (target self));
      [destruct (make_sysroot_path (android self) arch); [|done]|];
      simpl; intros [= <-];
      destruct (variables !! "includepaths");
      repeat case_bool_decide; simpl; solve_decidable.
  - unfold ar_variables.
    destruct (is_android (target self));
      [destruct (make_gcc_bin_path (android self) arch); [|done]|];
      simpl; intros [= <-]; solve_decidable.
  - unfold link_variables.
    destruct (make_linkarchflags self arch targettype); [|done]. simpl.
    destruct (is_android (target self));
      [destruct (make_sysroot_path (android self) arch); [|done]|];
      simpl; intros [= <-];
      destruct (variables !! "libs");
      repeat case_bool_decide; simpl; solve_decidable.
Qed.

Lemma binders_bind_once_witness :
  link_variables posix_os (sample_toolchain android_platform "")
    "release" "arm7" "sharedlib" sample_variables
  = Some
      [("linkarchflags",
        FlagList
          ["-target"; "armv7-none-linux-androideabi"; "-march=armv7-a";
           "-mhard-float"; "-mfpu=vfpv3-d16"; "-mfpu=neon";
           "-D_NDK_MATH_NO_SOFTFP=1"; "-marm"; "-gcc-toolchain";
           "$ndk/toolchains/arm7-4.9/prebuilt/linux-x86_64";
           "-Wl,--no-warn-mismatch"; "-Wl,--fix-cortex-a8"]);
       ("libs", FlagList ["-lfoundation"]);
       ("configlibpaths",
        FlagList ["-Llib"; "-Llib/release"; "-Llib/release/arm7"]);
       ("sysroot", Scalar "$ndk/platforms/android-21/arch-arm7");
       ("archlibs", FlagList ["-lm_hard"; "-lgcc"; "-landroid"])]
  ∧ NoDup ["linkarchflags"; "libs"; "configlibpaths"; "sysroot"; "archlibs"].
Proof.
  split; [vm_compute; reflexivity|].
  apply (binders_bind_once posix_os (sample_toolchain android_platform "")
           "release" "arm7" "sharedlib" sample_variables
           [("linkarchflags",
             FlagList
               ["-target"; "armv7-none-linux-androideabi"; "-march=armv7-a";
                "-mhard-float"; "-mfpu=vfpv3-d16"; "-mfpu=neon";
                "-D_NDK_MATH_NO_SOFTFP=1"; "-marm"; "-gcc-toolchain";
                "$ndk/toolchains/arm7-4.9/prebuilt/linux-x86_64";
                "-Wl,--no-warn-mismatch"; "-Wl,--fix-cortex-a8"]);
            ("libs", FlagList ["-lfoundation"]);
            ("configlibpaths",
             FlagList ["-Llib"; "-Llib/release"; "-Llib/release/arm7"]);
            ("sysroot", Scalar "$ndk/platforms/android-21/arch-arm7");
            ("archlibs", FlagList ["-lm_hard"; "-lgcc"; "-landroid"])]).
  right; right. vm_compute; reflexivity.
Defined.

(** X3: a compile edge binds [moreincludepaths] exactly when the caller's
    map has a non-empty list under ["includepaths"], and then to one
    ["-I"] token per path in the caller's order; a missing key, [None]
    and the empty list all leave the variable unbound. *)
Theorem cc_variables_moreincludepaths self config arch targettype
    (variables : variable_map) vars v :
  cc_variables self config arch targettype variables = Some vars →
  ("moreincludepaths", v) ∈ vars
  ↔ ∃ paths, variables !! "includepaths" = Some (Some paths)
             ∧ paths ≠ []
             ∧ v = FlagList ((λ path, "-I" +:+ path_escape self path) <$> paths).
Proof.
  unfold cc_variables.
  destruct (make_carchflags self arch targettype); [|done]. simpl.
  destruct (is_android (target self));
    [destruct (make_sysroot_path (android self) arch); [|done]|];
    simpl; intros [= <-];
    destruct (variables !! "includepaths") as [[[|path paths]|]|]; simpl;
    repeat case_bool_decide; simpl; elem_cases; naive_solver.
Qed.

Lemma cc_variables_moreincludepaths_witness :
  cc_variables (sample_toolchain generic_platform "") "debug" "x86-64" "lib"
    sample_variables
  = Some [("moreincludepaths", FlagList ["-Iext/include"]);
          ("cconfigflags", FlagList ["-DBUILD_DEBUG=1"; "-g"])]
  ∧ ∃ paths, sample_variables !! "includepaths" = Some (Some paths)
             ∧ paths ≠ []
             ∧ FlagList ["-Iext/include"]
               = FlagList ((λ path, "-I" +:+ path) <$> paths).
Proof.
  split; [vm_compute; reflexivity|].
  apply (cc_variables_moreincludepaths (sample_toolchain generic_platform "")
           "debug" "x86-64" "lib" sample_variables
           [("moreincludepaths", FlagList ["-Iext/include"]);
            ("cconfigflags", FlagList ["-DBUILD_DEBUG=1"; "-g"])]).
  - vm_compute; reflexivity.
  - apply list_elem_of_lookup. by exists 0.
Defined.

(** X4: a link edge binds [libs] exactly when the caller's map has a
    non-empty list under ["libs"], and then to one ["-l"] token per
    library in the caller's order. *)
Theorem link_variables_libs os self config arch targettype
    (variables : variable_map) vars v :
  link_variables os self config arch targettype variables = Some vars →
  ("libs", v) ∈ vars
  ↔ ∃ libs, variables !! "libs" = Some (Some libs)
            ∧ libs ≠ []
            ∧ v = FlagList ((λ lib, "-l" +:+ lib) <$> libs).
Proof.
  unfold link_variables.
  destruct (make_linkarchflags self arch targettype); [|done]. simpl.
  destruct (is_android (target self));
    [destruct (make_sysroot_path (android self) arch); [|done]|];
    simpl; intros [= <-];
    destruct (variables !! "libs") as [[[|lib libs]|]|]; simpl;
    repeat case_bool_decide; simpl; elem_cases; naive_solver.
Qed.

Lemma link_variables_libs_witness :
  link_variables posix_os (sample_toolchain generic_platform "")
    "debug" "x86-64" "bin" sample_variables
  = Some [("libs", FlagList ["-lfoundation"]);
          ("configlibpaths",
           FlagList ["-Llib"; "-Llib/debug"; "-Llib/debug/x86-64"])]
  ∧ ∃ libs, sample_variables !! "libs" = Some (Some libs)
            ∧ libs ≠ []
            ∧ FlagList ["-lfoundation"]
              = FlagList ((λ lib, "-l" +:+ lib) <$> libs).
Proof.
  split; [vm_compute; reflexivity|].
  apply (link_variables_libs posix_os (sample_toolchain generic_platform "")
           "debug" "x86-64" "bin" sample_variables
           [("libs", FlagList ["-lfoundation"]);
            ("configlibpaths",
             FlagList ["-Llib"; "-Llib/debug"; "-Llib/debug/x86-64"])]).
  - vm_compute; reflexivity.
  - apply list_elem_of_lookup. by exists 0.
Defined.

(** X5: compile and link edges bind [sysroot] exactly on Android, to the
    scalar path the NDK helper returns for the architecture. *)
Theorem binders_sysroot os self config arch targettype
    (variables : variable_map) vars v :
  cc_variables self config arch targettype variables = Some vars
  ∨ link_variables os self config arch targettype variables = Some vars →
  ("sysroot", v) ∈ vars
  ↔ is_android (target self) = true
    ∧ ∃ sysroot, make_sysroot_path (android self) arch = Some sysroot
                 ∧ v = Scalar sysroot.
Proof.
  intros [Hvars|Hvars]; revert Hvars.
  - unfold cc_variables.
    destruct (make_carchflags self arch targettype); [|done]. simpl.
    destruct (is_android (target self));
      [destruct (make_sysroot_path (android self) arch); [|done]|];
      simpl; intros [= <-];
      destruct (variables !! "includepaths");
      repeat case_bool_decide; simpl; elem_cases; naive_solver.
  - unfold link_variables.
    destruct (make_linkarchflags self arch targettype); [|done]. simpl.
    destruct (is_android (target self));
      [destruct (make_sysroot_path (android self) arch); [|done]|];
      simpl; intros [= <-];
      destruct (variables !! "libs");
      repeat case_bool_decide; simpl; elem_cases; naive_solver.
Qed.

Lemma binders_sysroot_witness :
  cc_variables (sample_toolchain android_platform "") "deploy" "arm64" "lib" ∅
  = Some [("carchflags",
           FlagList ["-target"; "aarch64-none-linux-android"; "-gcc-toolchain";
                     "$ndk/toolchains/arm64-4.9/prebuilt/linux-x86_64"]);
          ("cconfigflags",
           FlagList ["-DBUILD_DEPLOY=1"; "-O3"; "-g"; "-funroll-loops"]);
          ("sysroot", Scalar "$ndk/platforms/android-21/arch-arm64")]
  ∧ is_android (target (sample_toolchain android_platform "")) = true
  ∧ ∃ sysroot,
      make_sysroot_path (android (sample_toolchain android_platform "")) "arm64"
      = Some sysroot
      ∧ Scalar "$ndk/platforms/android-21/arch-arm64" = Scalar sysroot.
Proof.
  split; [vm_compute; reflexivity|].
  apply (binders_sysroot posix_os (sample_toolchain android_platform "")
           "deploy" "arm64" "lib" ∅
           [("carchflags",
             FlagList ["-target"; "aarch64-none-linux-android"; "-gcc-toolchain";
                       "$ndk/toolchains/arm64-4.9/prebuilt/linux-x86_64"]);
            ("cconfigflags",
             FlagList ["-DBUILD_DEPLOY=1"; "-O3"; "-g"; "-funroll-loops"]);
            ("sysroot", Scalar "$ndk/platforms/android-21/arch-arm64")]).
  - left. vm_compute; reflexivity.
  - apply list_elem_of_lookup. by exists 2.
Defined.

(** X6: every link edge binds [configlibpaths], to exactly three search
    path tokens in this order: the library directory, its configuration
    subdirectory and the architecture subdirectory of that, each escaped
    and prefixed with the platform's switch. *)
Theorem link_variables_configlibpaths os self config arch targettype
    (variables : variable_map) vars v :
  link_variables os self config arch targettype variables = Some vars →
  ("configlibpaths", v) ∈ vars
  ↔ v = FlagList
          [ libpath_switch self +:+ path_escape self (libpath self);
            libpath_switch self
              +:+ path_escape self (os_path_join os (libpath self) [config]);
            libpath_switch self
              +:+ path_escape self (os_path_join os (libpath self) [config; arch]) ].
Proof.
  unfold link_variables, make_configlibpaths, make_libpaths, libpath_switch.
  destruct (make_linkarchflags self arch targettype); [|done]. simpl.
  destruct (is_windows (target self));
    (destruct (is_android (target self));
      [destruct (make_sysroot_path (android self) arch); [|done]|]);
    simpl; intros [= <-];
    destruct (variables !! "libs");
    repeat case_bool_decide; simpl; elem_cases; naive_solver.
Qed.

Lemma link_variables_configlibpaths_witness :
  link_variables posix_os (sample_toolchain windows_platform "")
    "profile" "x86" "lib" ∅
  = Some [("configlibpaths",
           FlagList ["-Xlinker /LIBPATH:lib"; "-Xlinker /LIBPATH:lib/profile";
                     "-Xlinker /LIBPATH:lib/profile/x86"])]
  ∧ ("configlibpaths",
     FlagList ["-Xlinker /LIBPATH:lib"; "-Xlinker /LIBPATH:lib/profile";
               "-Xlinker /LIBPATH:lib/profile/x86"])
    ∈ [("configlibpaths",
        FlagList ["-Xlinker /LIBPATH:lib"; "-Xlinker /LIBPATH:lib/profile";
                  "-Xlinker /LIBPATH:lib/profile/x86"])].
Proof.
  split; [vm_compute; reflexivity|].
  apply (link_variables_configlibpaths posix_os
           (sample_toolchain windows_platform "") "profile" "x86" "lib" ∅
           [("configlibpaths",
             FlagList ["-Xlinker /LIBPATH:lib"; "-Xlinker /LIBPATH:lib/profile";
                       "-Xlinker /LIBPATH:lib/profile/x86"])]).
  - vm_compute; reflexivity.
  - vm_compute; reflexivity.
Defined.

Lemma make_libs_linkarchlibs self arch targettype :
  make_libs (Some (make_linkarchlibs self arch targettype))
  = if is_android (target self) then
      if bool_decide (arch = "arm7")
      then ["-lm_hard"; "-lgcc"; "-landroid"]
      else ["-lm"; "-lgcc"; "-landroid"]
    else [].
Proof.
  unfold make_linkarchlibs.
  destruct (is_android (target self)); [|done]. by case_bool_decide.
Qed.

(** X7: a link edge binds [archlibs] exactly on Android, to the ["-l"]
    flags of the math library (["m_hard"] for ["arm7"], ["m"] otherwise),
    [gcc] and [android], in that order. *)
Theorem link_variables_archlibs os self config arch targettype
    (variables : variable_map) vars v :
  link_variables os self config arch targettype variables = Some vars →
  ("archlibs", v) ∈ vars
  ↔ is_android (target self) = true
    ∧ v = FlagList (if bool_decide (arch = "arm7")
                    then ["-lm_hard"; "-lgcc"; "-landroid"]
                    else ["-lm"; "-lgcc"; "-landroid"]).
Proof.
  unfold link_variables. rewrite make_libs_linkarchlibs.
  unfold make_linkarchlibs.
  destruct (make_linkarchflags self arch targettype); [|done]. simpl.
  destruct (is_android (target self));
    [destruct (make_sysroot_path (android self) arch); [|done]|];
    simpl; intros [= <-];
    destruct (variables !! "libs");
    repeat case_bool_decide; simpl in *; elem_cases; naive_solver.
Qed.

Lemma link_variables_archlibs_witness :
  link_variables posix_os (sample_toolchain android_platform "")
    "debug" "x86" "bin" ∅
  = Some [("linkarchflags",
           FlagList ["-target"; "i686-none-linux-android"; "-march=i686";
                     "-mtune=intel"; "-mssse3"; "-mfpmath=sse"; "-m32";
                     "-gcc-toolchain";
                     "$ndk/toolchains/x86-4.9/prebuilt/linux-x86_64"]);
          ("configlibpaths", FlagList ["-Llib"; "-Llib/debug"; "-Llib/debug/x86"]);
          ("sysroot", Scalar "$ndk/platforms/android-21/arch-x86");
          ("archlibs", FlagList ["-lm"; "-lgcc"; "-landroid"])]
  ∧ is_android (target (sample_toolchain android_platform "")) = true
  ∧ FlagList ["-lm"; "-lgcc"; "-landroid"]
    = FlagList (if bool_decide ("x86" = "arm7")
                then ["-lm_hard"; "-lgcc"; "-landroid"]
                else ["-lm"; "-lgcc"; "-landroid"]).
Proof.
  split; [vm_compute; reflexivity|].
  apply (link_variables_archlibs posix_os (sample_toolchain android_platform "")
           "debug" "x86" "bin" ∅
           [("linkarchflags",
             FlagList ["-target"; "i686-none-linux-android"; "-march=i686";
                       "-mtune=intel"; "-mssse3"; "-mfpmath=sse"; "-m32";
                       "-gcc-toolchain";
                       "$ndk/toolchains/x86-4.9/prebuilt/linux-x86_64"]);
            ("configlibpaths",
             FlagList ["-Llib"; "-Llib/debug"; "-Llib/debug/x86"]);
            ("sysroot", Scalar "$ndk/platforms/android-21/arch-x86");
            ("archlibs", FlagList ["-lm"; "-lgcc"; "-landroid"])]).
  - vm_compute; reflexivity.
  - apply list_elem_of_lookup. by exists 3.
Defined.

(** X8: a compile edge gets no override at all exactly when the target is
    not Android, the target type is not ["sharedlib"], the configuration
    is none of the four known ones and the caller supplies no include
    path (no key, [None] or an empty list). *)
Theorem cc_variables_no_overrides self config arch targettype
    (variables : variable_map) :
  cc_variables self config arch targettype variables = Some []
  ↔ is_android (target self) = false
    ∧ targettype ≠ "sharedlib"
    ∧ (config ∉ known_configs)
    ∧ (variables !! "includepaths" = None
       ∨ variables !! "includepaths" = Some None
       ∨ variables !! "includepaths" = Some (Some [])).
Proof.
  unfold cc_variables, make_carchflags, make_targetarchflags, make_cconfigflags,
    known_configs.
  destruct (is_android (target self)); simpl.
  - split; [|by intros [? _]].
    destruct (make_gcc_toolchain_path (android self) arch); [|done]. simpl.
    destruct (make_sysroot_path (android self) arch); [|done]. simpl.
    intros [= Hnil]. by apply app_nil in Hnil as [_ ?].
  - rewrite !not_elem_of_cons.
    destruct (variables !! "includepaths") as [[[|path paths]|]|]; simpl;
      repeat case_bool_decide; simplify_eq/=;
      (split; [intros ?; simplify_eq
              |intros (_ & ? & (? & ? & ? & ? & _) & [?|[?|?]])]);
      try done.
    all: repeat split; auto using not_elem_of_nil.
Qed.

Lemma cc_variables_no_overrides_witness :
  cc_variables (sample_toolchain generic_platform "") "fast" "x86-64" "bin"
    {[ "includepaths" := None ]}
  = Some [].
Proof.
  apply (cc_variables_no_overrides (sample_toolchain generic_platform "")
           "fast" "x86-64" "bin" {[ "includepaths" := None ]}).
  split; [reflexivity|]. split; [done|].
  split; [unfold known_configs; solve_not_elem|].
  right; left. vm_compute; reflexivity.
Defined.

(** ** Architecture flags *)

(** X9: on Android the flags of a recognised architecture start with
    ["-target"] and a target triple, and two recognised architectures
    with the same triple are the same architecture. *)
Theorem target_triples_distinct self arch1 arch2 targettype1 targettype2
    flags1 flags2 :
  is_android (target self) = true →
  arch1 ∈ recognized_archs → arch2 ∈ recognized_archs →
  make_targetarchflags self arch1 targettype1 = Some flags1 →
  make_targetarchflags self arch2 targettype2 = Some flags2 →
  flags1 !! 0 = Some "-target"
  ∧ is_Some (flags1 !! 1)
  ∧ (flags1 !! 1 = flags2 !! 1 → arch1 = arch2).
Proof.
  unfold make_targetarchflags, recognized_archs. intros -> Harch1 Harch2.
  destruct (make_gcc_toolchain_path (android self) arch1); [|done].
  destruct (make_gcc_toolchain_path (android self) arch2); [|done].
  simpl. intros [= <-] [= <-].
  repeat (apply elem_of_cons in Harch1 as [->|Harch1]);
    [..|by apply elem_of_nil in Harch1];
    (split; [done|]; split; [by eexists|]);
    (repeat (apply elem_of_cons in Harch2 as [->|Harch2]);
      [..|by apply elem_of_nil in Harch2]);
    done.
Qed.

Lemma target_triples_distinct_witness :
  "mips" ∈ recognized_archs ∧ "mips64" ∈ recognized_archs
  ∧ ["-target"; "mipsel-none-linux-android"; "-gcc-toolchain";
     "$ndk/toolchains/mips-4.9/prebuilt/linux-x86_64"] !! 0
    = Some "-target"
  ∧ (["-target"; "mipsel-none-linux-android"; "-gcc-toolchain";
      "$ndk/toolchains/mips-4.9/prebuilt/linux-x86_64"] !! 1
     = ["-target"; "mips64el-none-linux-android"; "-gcc-toolchain";
        "$ndk/toolchains/mips64-4.9/prebuilt/linux-x86_64"] !! 1
     → "mips" = "mips64").
Proof.
  assert (Hmips : "mips" ∈ recognized_archs)
    by (unfold recognized_archs; solve_decidable).
  assert (Hmips64 : "mips64" ∈ recognized_archs)
    by (unfold recognized_archs; solve_decidable).
  split; [exact Hmips|]. split; [exact Hmips64|].
  destruct (target_triples_distinct (sample_toolchain android_platform "")
              "mips" "mips64" "lib" "bin"
              ["-target"; "mipsel-none-linux-android"; "-gcc-toolchain";
               "$ndk/toolchains/mips-4.9/prebuilt/linux-x86_64"]
              ["-target"; "mips64el-none-linux-android"; "-gcc-toolchain";
               "$ndk/toolchains/mips64-4.9/prebuilt/linux-x86_64"]
              eq_refl Hmips Hmips64 eq_refl eq_refl)
    as (Hfirst & _ & Hinj).
  split; [exact Hfirst|exact Hinj].
Defined.

(** X10: the compile and the link architecture flags of one edge are built
    around the same target flags: the compile flags put the dynamic-link
    define in front of them for a shared library, the link flags put the
    two fix-up flags behind them for ["arm7"] on Android. *)
Theorem arch_flags_share_target self arch targettype compileflags linkerflags :
  make_carchflags self arch targettype = Some compileflags →
  make_linkarchflags self arch targettype = Some linkerflags →
  ∃ archflags,
    make_targetarchflags self arch targettype = Some archflags
    ∧ compileflags
      = (if bool_decide (targettype = "sharedlib")
         then ["-DBUILD_DYNAMIC_LINK=1"] else []) ++ archflags
    ∧ linkerflags
      = archflags
        ++ (if is_android (target self) && bool_decide (arch = "arm7")
            then ["-Wl,--no-warn-mismatch"; "-Wl,--fix-cortex-a8"] else []).
Proof.
  unfold make_carchflags, make_linkarchflags.
  destruct (is_android (target self)) eqn:Handroid.
  - destruct (make_targetarchflags self arch targettype) as [archflags|]; [|done].
    simpl. intros [= <-] [= <-]. exists archflags. split; [done|].
    split; [by case_bool_decide|]. case_bool_decide; [done|]. by rewrite app_nil_r.
  - rewrite make_targetarchflags_generic by done.
    intros [= <-] [= <-]. exists []. split; [done|].
    split; [|done]. case_bool_decide; done.
Qed.

Lemma arch_flags_share_target_witness :
  ∃ archflags,
    make_targetarchflags (sample_toolchain android_platform "") "arm64" "sharedlib"
    = Some archflags
    ∧ ["-DBUILD_DYNAMIC_LINK=1"; "-target"; "aarch64-none-linux-android";
       "-gcc-toolchain"; "$ndk/toolchains/arm64-4.9/prebuilt/linux-x86_64"]
      = (if bool_decide ("sharedlib" = "sharedlib")
         then ["-DBUILD_DYNAMIC_LINK=1"] else []) ++ archflags
    ∧ ["-target"; "aarch64-none-linux-android";
       "-gcc-toolchain"; "$ndk/toolchains/arm64-4.9/prebuilt/linux-x86_64"]
      = archflags
        ++ (if is_android (target (sample_toolchain android_platform ""))
               && bool_decide ("arm64" = "arm7")
            then ["-Wl,--no-warn-mismatch"; "-Wl,--fix-cortex-a8"] else []).
Proof.
  apply (arch_flags_share_target (sample_toolchain android_platform "")
           "arm64" "sharedlib"); reflexivity.
Defined.

(** ** Platform specialisation *)

(** X11: normalising the prefix twice is the same as normalising it once:
    a separator is never appended to a prefix the method has already
    treated. *)
Theorem normalize_toolchain_idempotent os self :
  normalize_toolchain os (normalize_toolchain os self)
  = normalize_toolchain os self.
Proof.
  pose proof (normalize_toolchain_cases os self) as Hcases.
  pose proof (endswith_sep_trailing (toolchain (normalize_toolchain os self)))
    as Hends.
  unfold normalize_toolchain at 1.
  destruct Hcases as [[_ Hempty]|[[Hrun Hsame]|(_ & _ & _ & Hone)]].
  - by rewrite Hempty.
  - rewrite Hsame in *. apply Hends in Hrun.
    apply orb_true_iff in Hrun as [-> | ->]; simpl;
      by rewrite ?andb_false_r.
  - assert (endswith (toolchain (normalize_toolchain os self)) "/"
            || endswith (toolchain (normalize_toolchain os self)) "\" = true)
      as Hrun by (apply Hends; lia).
    apply orb_true_iff in Hrun as [-> | ->]; simpl;
      by rewrite ?andb_false_r.
Qed.

(** X12: on every platform [build_toolchain] leaves the target, the NDK
    helper, the escaping function, the library directory, the library
    search paths and the compiler and linker names as the base class set
    them, and it only ever appends to the base compile and link flags. *)
Theorem build_toolchain_frame super os self self' :
  build_toolchain super os self = Some self' →
  ∃ base,
    super self = Some base
    ∧ target self' = target base
    ∧ android self' = android base
    ∧ path_escape self' = path_escape base
    ∧ libpath self' = libpath base
    ∧ libpaths self' = libpaths base
    ∧ ccompiler self' = ccompiler base
    ∧ linker self' = linker base
    ∧ cflags base `prefix_of` cflags self'
    ∧ linkflags base `prefix_of` linkflags self'.
Proof.
  unfold build_toolchain, specialize_platform, build_android_toolchain,
    normalize_toolchain.
  destruct (super self) as [base|]; [|done]. simpl. intros Hbuild.
  exists base. split; [done|]. revert Hbuild.
  destruct (is_windows (target base)); simpl;
    [|destruct (is_android (target base)); simpl;
      [destruct (includepaths base); [|done]; simpl|]];
    intros [= <-]; case_if; simpl;
    repeat split; try done; try apply prefix_app_r; done.
Qed.

Lemma build_toolchain_frame_witness :
  ∃ base,
    Some (sample_toolchain android_platform "/opt/llvm") = Some base
    ∧ target (normalize_toolchain posix_os
                (default base (build_android_toolchain posix_os base)))
      = target base.
Proof.
  destruct (build_toolchain_frame Some posix_os
              (sample_toolchain android_platform "/opt/llvm") _ eq_refl)
    as (base & Hbase & Htarget & _).
  exists base. split; [exact Hbase|].
  injection Hbase as <-. exact Htarget.
Defined.

(** X13: on a target that is neither Windows nor Android,
    [build_toolchain] changes nothing but the prefix: the result is the
    base-class state with its prefix normalised. *)
Theorem build_toolchain_generic super os self self' :
  build_toolchain super os self = Some self' →
  ∃ base,
    super self = Some base
    ∧ (is_windows (target base) = false → is_android (target base) = false →
       self' = normalize_toolchain os base
       ∧ set_toolchain (toolchain base) self' = base).
Proof.
  unfold build_toolchain, specialize_platform.
  destruct (super self) as [base|]; [|done]. simpl. intros Hbuild.
  exists base. split; [done|]. intros Hwin Handroid.
  rewrite Hwin, Handroid in Hbuild. simpl in Hbuild. injection Hbuild as <-.
  split; [done|]. unfold normalize_toolchain.
  destruct base; simpl. case_if; done.
Qed.

Lemma build_toolchain_generic_witness :
  build_toolchain Some posix_os (sample_toolchain generic_platform "/opt/llvm")
  = Some (set_toolchain "/opt/llvm/" (sample_toolchain generic_platform "/opt/llvm"))
  ∧ set_toolchain "/opt/llvm"
      (set_toolchain "/opt/llvm/" (sample_toolchain generic_platform "/opt/llvm"))
    = sample_toolchain generic_platform "/opt/llvm".
Proof.
  split; [reflexivity|].
  destruct (build_toolchain_generic Some posix_os
              (sample_toolchain generic_platform "/opt/llvm") _ eq_refl)
    as (base & Hbase & Hgeneric).
  injection Hbase as <-.
  exact (proj2 (Hgeneric eq_refl eq_refl)).
Defined.

(** X14: the system libraries after [build_toolchain]: Windows discards
    whatever was there and sets the four import libraries, also when the
    target claims to be Android as well; Android appends [log]; any other
    platform keeps the list. *)
Theorem build_toolchain_oslibs super os self self' :
  build_toolchain super os self = Some self' →
  ∃ base,
    super self = Some base
    ∧ oslibs self'
      = if is_windows (target base)
        then ["kernel32"; "user32"; "shell32"; "advapi32"]
        else if is_android (target base) then oslibs base ++ ["log"]
        else oslibs base.
Proof.
  unfold build_toolchain, specialize_platform, build_android_toolchain,
    normalize_toolchain.
  destruct (super self) as [base|]; [|done]. simpl. intros Hbuild.
  exists base. split; [done|]. revert Hbuild.
  destruct (is_windows (target base)); simpl;
    [|destruct (is_android (target base)); simpl;
      [destruct (includepaths base); [|done]; simpl|]];
    intros [= <-]; case_if; done.
Qed.

Lemma build_toolchain_oslibs_witness :
  ∃ base,
    Some (sample_toolchain windows_platform "") = Some base
    ∧ oslibs (normalize_toolchain posix_os (build_windows_toolchain base))
      = ["kernel32"; "user32"; "shell32"; "advapi32"].
Proof.
  destruct (build_toolchain_oslibs Some posix_os
              (sample_toolchain windows_platform "") _ eq_refl)
    as (base & Hbase & Hoslibs).
  exists base. split; [exact Hbase|].
  injection Hbase as <-. exact Hoslibs.
Defined.

(** X15: on Android (and not Windows) the prefix that [build_toolchain]
    leaves does not depend on the prefix it found, for instance one read
    from the preferences: it is determined by the host architecture name
    of the NDK helper alone. *)
Theorem build_toolchain_android_prefix super os self1 self2 base1 base2
    self1' self2' :
  super self1 = Some base1 → super self2 = Some base2 →
  is_windows (target base1) = false → is_android (target base1) = true →
  is_windows (target base2) = false → is_android (target base2) = true →
  hostarchname (android base1) = hostarchname (android base2) →
  build_toolchain super os self1 = Some self1' →
  build_toolchain super os self2 = Some self2' →
  toolchain self1' = toolchain self2'.
Proof.
  unfold build_toolchain, specialize_platform, build_android_toolchain,
    normalize_toolchain.
  intros Hbase1 Hbase2 Hwin1 Handroid1 Hwin2 Handroid2 Hhost.
  rewrite Hbase1, Hbase2. simpl.
  rewrite Hwin1, Handroid1, Hwin2, Handroid2.
  destruct (includepaths base1); [|done].
  destruct (includepaths base2); [|done]. simpl. rewrite Hhost.
  intros [= <-] [= <-]. repeat case_if; done.
Qed.

Lemma build_toolchain_android_prefix_witness :
  toolchain (normalize_toolchain posix_os
               (default (sample_toolchain android_platform "")
                  (build_android_toolchain posix_os
                     (sample_toolchain android_platform ""))))
  = toolchain (normalize_toolchain posix_os
                 (default (sample_toolchain android_platform "/opt/llvm")
                    (build_android_toolchain posix_os
                       (sample_toolchain android_platform "/opt/llvm")))).
Proof.
  apply (build_toolchain_android_prefix Some posix_os
           (sample_toolchain android_platform "")
           (sample_toolchain android_platform "/opt/llvm")
           (sample_toolchain android_platform "")
           (sample_toolchain android_platform "/opt/llvm"));
    reflexivity.
Defined.

(** X16: [build_toolchain] raises in two cases only: the base-class
    method raises, or the Android branch is taken on a toolchain that was
    constructed with [None] for its include paths, which cannot be
    extended. *)
Theorem build_toolchain_raises super os self :
  build_toolchain super os self = None
  ↔ super self = None
    ∨ ∃ base, super self = Some base
              ∧ is_windows (target base) = false
              ∧ is_android (target base) = true
              ∧ includepaths base = None.
Proof.
  unfold build_toolchain, specialize_platform, build_android_toolchain.
  destruct (super self) as [base|]; simpl; [|split; auto].
  split.
  - intros Hnone. right. exists base. split; [done|].
    destruct (is_windows (target base)); [done|].
    destruct (is_android (target base)); [|done].
    by destruct (includepaths base).
  - intros [?|(? & [= <-] & -> & -> & ->)]; done.
Qed.

Lemma build_toolchain_raises_witness :
  build_toolchain (λ _, None) posix_os (sample_toolchain android_platform "")
  = None.
Proof.
  apply (build_toolchain_raises (λ _, None) posix_os
           (sample_toolchain android_platform "")).
  left. reflexivity.
Defined.

(** X17: on Android (and not Windows) [build_toolchain] switches the
    archiver to [ar], appends the sysroot option to both command
    templates and appends the two NDK directories to the include paths,
    so that the include flags written afterwards are the earlier ones
    followed by one ["-I"] token for each of the two. *)
Theorem build_toolchain_android_state super os self base self' :
  super self = Some base →
  is_windows (target base) = false → is_android (target base) = true →
  build_toolchain super os self = Some self' →
  archiver self' = "ar"
  ∧ cccmd self' = cccmd base +:+ " --sysroot=$sysroot"
  ∧ linkcmd self'
    = linkcmd base +:+ " -shared -Wl,-soname,$liblinkname --sysroot=$sysroot"
  ∧ make_includepaths self' (includepaths self')
    = make_includepaths base (includepaths base)
      ++ [ "-I" +:+ path_escape base
             (os_path_join os "$ndk" ["sources"; "android"; "native_app_glue"]);
           "-I" +:+ path_escape base
             (os_path_join os "$ndk" ["sources"; "android"; "cpufeatures"]) ].
Proof.
  unfold build_toolchain, specialize_platform, build_android_toolchain,
    normalize_toolchain.
  intros Hbase Hwin Handroid. rewrite Hbase. simpl. rewrite Hwin, Handroid.
  destruct (includepaths base) as [paths|]; [|done]. simpl.
  intros [= <-]. case_if; simpl; by rewrite fmap_app.
Qed.

Lemma build_toolchain_android_state_witness :
  archiver (normalize_toolchain posix_os
              (default (sample_toolchain android_platform "")
                 (build_android_toolchain posix_os
                    (sample_toolchain android_platform ""))))
  = "ar".
Proof.
  apply (build_toolchain_android_state Some posix_os
           (sample_toolchain android_platform "")
           (sample_toolchain android_platform ""));
    reflexivity.
Defined.

(** ** Writer-facing methods *)

Lemma binder_keys os self config arch targettype (variables : variable_map)
    vars key v :
  cc_variables self config arch targettype variables = Some vars
  ∨ ar_variables self config arch targettype variables = Some vars
  ∨ link_variables os self config arch targettype variables = Some vars →
  (key, v) ∈ vars →
  key ∈ ["moreincludepaths"; "carchflags"; "cconfigflags"; "sysroot";
         "toolchain"; "linkarchflags"; "linkconfigflags"; "libs";
         "configlibpaths"; "archlibs"].
Proof.
  intros [Hvars|[Hvars|Hvars]]; revert Hvars.
  - unfold cc_variables.
    destruct (make_carchflags self arch targettype); [|done]. simpl.
    destruct (is_android (target self));
      [destruct (make_sysroot_path (android self) arch); [|done]|];
      simpl; intros [= <-];
      destruct (variables !! "includepaths");
      repeat case_bool_decide; simpl; intros Hin; each_binding Hin;
      solve_decidable.
  - unfold ar_variables.
    destruct (is_android (target self));
      [destruct (make_gcc_bin_path (android self) arch); [|done]|];
      simpl; intros [= <-] Hin; each_binding Hin; solve_decidable.
  - unfold link_variables.
    destruct (make_linkarchflags self arch targettype); [|done]. simpl.
    destruct (is_android (target self));
      [destruct (make_sysroot_path (android self) arch); [|done]|];
      simpl; intros [= <-];
      destruct (variables !! "libs");
      repeat case_bool_decide; simpl; intros Hin; each_binding Hin;
      solve_decidable.
Qed.

(** X18: every variable a binder may bind on an edge, except [sysroot],
    has a global default declared by [write_variables]. *)
Theorem binder_names_declared base_write arflags os self config arch targettype
    (variables : variable_map) writer writer' vars key v :
  write_variables base_write arflags self writer = Some writer' →
  cc_variables self config arch targettype variables = Some vars
  ∨ ar_variables self config arch targettype variables = Some vars
  ∨ link_variables os self config arch targettype variables = Some vars →
  (key, v) ∈ vars → key ≠ "sysroot" →
  key ∈ variable_names writer'.
Proof.
  unfold write_variables, variable_names.
  destruct (base_write self writer) as [writer0|]; [|done]. simpl.
  intros [= <-] Hvars Hin Hkey.
  pose proof (binder_keys _ _ _ _ _ _ _ _ _ Hvars Hin) as Hkeys.
  rewrite omap_app. apply elem_of_app. right. simpl.
  repeat (apply elem_of_cons in Hkeys as [->|Hkeys]);
    [..|by apply elem_of_nil in Hkeys]; try done; solve_decidable.
Qed.

Lemma binder_names_declared_witness :
  "cconfigflags"
  ∈ variable_names
      (default []
         (write_variables idle_writer_method (λ _, [])
            (sample_toolchain generic_platform "") [])).
Proof.
  apply (binder_names_declared idle_writer_method (λ _, []) posix_os
           (sample_toolchain generic_platform "") "debug" "x86-64" "lib" ∅ []
           _ [("cconfigflags", FlagList ["-DBUILD_DEBUG=1"; "-g"])]
           "cconfigflags" (FlagList ["-DBUILD_DEBUG=1"; "-g"])).
  - reflexivity.
  - left. vm_compute; reflexivity.
  - apply list_elem_of_lookup. by exists 0.
  - done.
Defined.

(** X19: after [build_toolchain] on a Windows target, [write_variables]
    declares [oslibs] as the ["-l"] flags of the four import libraries,
    whatever system libraries the toolchain held before. *)
Theorem write_variables_windows_oslibs super os base_write arflags
    self base self' writer writer' :
  super self = Some base → is_windows (target base) = true →
  build_toolchain super os self = Some self' →
  write_variables base_write arflags self' writer = Some writer' →
  WVariable "oslibs"
    (FlagList ["-lkernel32"; "-luser32"; "-lshell32"; "-ladvapi32"])
  ∈ writer'.
Proof.
  unfold build_toolchain, specialize_platform, write_variables.
  intros -> Hwin. simpl. rewrite Hwin. simpl. intros [= <-].
  destruct (base_write _ writer) as [writer0|]; [|done]. simpl.
  intros [= <-]. apply elem_of_app. right.
  assert (oslibs (normalize_toolchain os (build_windows_toolchain base))
          = ["kernel32"; "user32"; "shell32"; "advapi32"]) as ->.
  { unfold normalize_toolchain. by case_if. }
  apply list_elem_of_lookup. by exists 19.
Qed.

Lemma write_variables_windows_oslibs_witness :
  WVariable "oslibs"
    (FlagList ["-lkernel32"; "-luser32"; "-lshell32"; "-ladvapi32"])
  ∈ default []
      (write_variables idle_writer_method (λ _, [])
         (normalize_toolchain posix_os
            (build_windows_toolchain (sample_toolchain windows_platform "")))
         []).
Proof.
  apply (write_variables_windows_oslibs Some posix_os idle_writer_method
           (λ _, []) (sample_toolchain windows_platform "")
           (sample_toolchain windows_platform "")
           (normalize_toolchain posix_os
              (build_windows_toolchain (sample_toolchain windows_platform "")))
           []);
    reflexivity.
Defined.

(** X20: each of the four builders appends exactly one build call to the
    writer's log, for the output it was given, under a rule that
    [write_rules] declares, and no variable of that call is bound to an
    empty flag list. *)
Theorem builders_emit_one_edge base_rules arcmd ccdepfile ccdeps implicit_deps
    os self rulelog rules writer writer' config arch targettype infile infiles
    outfile (variables : variable_map) :
  write_rules base_rules arcmd ccdepfile ccdeps self rulelog = Some rules →
  builder_cc implicit_deps self writer config arch targettype infile outfile
    variables = Some writer'
  ∨ builder_lib implicit_deps self writer config arch targettype infiles outfile
      variables = Some writer'
  ∨ builder_sharedlib implicit_deps os self writer config arch targettype infiles
      outfile variables = Some writer'
  ∨ builder_bin implicit_deps os self writer config arch targettype infiles
      outfile variables = Some writer' →
  ∃ rule inputs implicit vars,
    writer' = writer ++ [WBuild outfile rule inputs implicit vars]
    ∧ rule ∈ rule_names rules
    ∧ Forall (λ binding, binding.2 ≠ FlagList []) vars.
Proof.
  unfold write_rules.
  destruct (base_rules self rulelog) as [rules0|]; [|done]. simpl.
  intros [= <-].
  assert (∀ rule, rule ∈ ["cc"; "ar"; "link"; "so"] →
                  rule ∈ rule_names
                           (rules0 ++
                              [WRule "cc" (cccmd self) (Some (ccdepfile self))
                                 (Some (ccdeps self)) "CC $in";
                               WRule "ar" (arcmd self) None None "LIB $out";
                               WRule "link" (linkcmd self) None None "LINK $out";
                               WRule "so" (linkcmd self) None None "SO $out";
                               WNewline])) as Hdeclared.
  { intros rule Hrule. unfold rule_names. rewrite omap_app.
    apply elem_of_app. by right. }
  unfold builder_cc, builder_lib, builder_sharedlib, builder_bin.
  destruct (implicit_deps self config variables) as [implicit|]; simpl;
    [|by intros [?|[?|[?|?]]]].
  intros [Hcall|[Hcall|[Hcall|Hcall]]]; revert Hcall.
  - destruct (cc_variables self config arch targettype variables)
      as [vars|] eqn:Hvars; [|done].
    simpl. intros [= <-]. eexists _, _, _, _. split; [done|].
    split; [apply Hdeclared; solve_decidable|by eapply cc_variables_nonempty].
  - destruct (ar_variables self config arch targettype variables)
      as [vars|] eqn:Hvars; [|done].
    simpl. intros [= <-]. eexists _, _, _, _. split; [done|].
    split; [apply Hdeclared; solve_decidable|by eapply ar_variables_nonempty].
  - destruct (link_variables os self config arch targettype variables)
      as [vars|] eqn:Hvars; [|done].
    simpl. intros [= <-]. eexists _, _, _, _. split; [done|].
    split; [apply Hdeclared; solve_decidable|by eapply link_variables_nonempty].
  - destruct (link_variables os self config arch targettype variables)
      as [vars|] eqn:Hvars; [|done].
    simpl. intros [= <-]. eexists _, _, _, _. split; [done|].
    split; [apply Hdeclared; solve_decidable|by eapply link_variables_nonempty].
Qed.

Lemma builders_emit_one_edge_witness :
  ∃ rule inputs implicit vars,
    default []
      (builder_cc no_implicit_deps (sample_toolchain generic_platform "") []
         "debug" "x86-64" "lib" "main.c" "main.o" ∅)
    = [] ++ [WBuild "main.o" rule inputs implicit vars]
    ∧ rule ∈ rule_names
               (default []
                  (write_rules idle_writer_method (λ _, "$toolchain$ar crsD $out $in")
                     (λ _, "$out.d") (λ _, "gcc")
                     (sample_toolchain generic_platform "") []))
    ∧ Forall (λ binding, binding.2 ≠ FlagList []) vars.
Proof.
  apply (builders_emit_one_edge idle_writer_method
           (λ _, "$toolchain$ar crsD $out $in") (λ _, "$out.d") (λ _, "gcc")
           no_implicit_deps posix_os (sample_toolchain generic_platform "")
           [] _ [] _ "debug" "x86-64" "lib" "main.c" [] "main.o" ∅).
  - reflexivity.
  - left. reflexivity.
Defined.

(** X21: the shared-library builder and the executable builder each
    return exactly when [implicit_deps] and [link_variables] do, and they
    then append the same build call but for the rule name, ["so"] for the
    shared library against ["link"] for the executable: same output,
    inputs, implicit dependencies and variable overrides. *)
Theorem builder_bin_sharedlib implicit_deps os self writer config arch targettype
    infiles outfile (variables : variable_map) :
  (is_Some (builder_sharedlib implicit_deps os self writer config arch targettype
              infiles outfile variables)
   ↔ is_Some (implicit_deps self config variables)
     ∧ is_Some (link_variables os self config arch targettype variables))
  ∧ (is_Some (builder_bin implicit_deps os self writer config arch targettype
                infiles outfile variables)
     ↔ is_Some (implicit_deps self config variables)
       ∧ is_Some (link_variables os self config arch targettype variables))
  ∧ ∀ implicit vars,
      implicit_deps self config variables = Some implicit →
      link_variables os self config arch targettype variables = Some vars →
      builder_sharedlib implicit_deps os self writer config arch targettype
        infiles outfile variables
      = Some (writer ++ [WBuild outfile "so" (Files infiles) implicit vars])
      ∧ builder_bin implicit_deps os self writer config arch targettype
          infiles outfile variables
        = Some (writer ++ [WBuild outfile "link" (Files infiles) implicit vars]).
Proof.
  unfold builder_sharedlib, builder_bin.
  destruct (implicit_deps self config variables) as [implicit0|]; simpl.
  - destruct (link_variables os self config arch targettype variables)
      as [vars0|]; simpl.
    + split; [split; [intros _; split; by eexists|by eexists]|].
      split; [split; [intros _; split; by eexists|by eexists]|].
      by intros implicit vars [= <-] [= <-].
    + split; [split; [by intros [? ?]|by intros [_ [? ?]]]|].
      split; [split; [by intros [? ?]|by intros [_ [? ?]]]|].
      by intros implicit vars.
  - split; [split; [by intros [? ?]|by intros [[? ?] _]]|].
    split; [split; [by intros [? ?]|by intros [[? ?] _]]|].
    by intros implicit vars.
Qed.

Lemma builder_bin_sharedlib_witness :
  builder_sharedlib no_implicit_deps posix_os
    (sample_toolchain generic_platform "") []
    "debug" "x86-64" "sharedlib" ["main.o"] "libdemo.so" ∅
  = Some ([] ++ [WBuild "libdemo.so" "so" (Files ["main.o"]) None
                   [("configlibpaths",
                     FlagList ["-Llib"; "-Llib/debug"; "-Llib/debug/x86-64"])]])
  ∧ builder_bin no_implicit_deps posix_os
      (sample_toolchain generic_platform "") []
      "debug" "x86-64" "sharedlib" ["main.o"] "libdemo.so" ∅
    = Some ([] ++ [WBuild "libdemo.so" "link" (Files ["main.o"]) None
                     [("configlibpaths",
                       FlagList ["-Llib"; "-Llib/debug"; "-Llib/debug/x86-64"])]]).
Proof.
  apply (proj2 (proj2 (builder_bin_sharedlib no_implicit_deps posix_os
                         (sample_toolchain generic_platform "") []
                         "debug" "x86-64" "sharedlib" ["main.o"] "libdemo.so" ∅))).
  - reflexivity.
  - vm_compute; reflexivity.
Defined.

(** X22: [parse_prefs] takes the prefix from the entry ["toolchain"] of
    the preferences stored under the toolchain's own name; when either
    key is missing the prefix stays as the base class left it, and in
    every case nothing but the prefix differs from the base-class state. *)
Theorem parse_prefs_toolchain base_parse self (prefs : preferences) self' :
  parse_prefs base_parse self prefs = Some self' →
  ∃ base,
    base_parse self prefs = Some base
    ∧ toolchain self'
      = default (toolchain base) (prefs !! name ≫= (.!! "toolchain"))
    ∧ set_toolchain (toolchain base) self' = base.
Proof.
  unfold parse_prefs, name.
  destruct (base_parse self prefs) as [base|]; [|done]. simpl.
  intros [= <-]. exists base. split; [done|].
  destruct (prefs !! "clang") as [clangprefs|]; simpl; [|by destruct base].
  destruct (clangprefs !! "toolchain"); simpl; by destruct base.
Qed.

Lemma parse_prefs_toolchain_witness :
  ∃ base,
    idle_parse_prefs (sample_toolchain generic_platform "") sample_preferences
    = Some base
    ∧ toolchain (set_toolchain "/opt/llvm" (sample_toolchain generic_platform ""))
      = default (toolchain base) (sample_preferences !! name ≫= (.!! "toolchain"))
    ∧ set_toolchain (toolchain base)
        (set_toolchain "/opt/llvm" (sample_toolchain generic_platform ""))
      = base.
Proof.
  apply (parse_prefs_toolchain idle_parse_prefs
           (sample_toolchain generic_platform "") sample_preferences).
  vm_compute; reflexivity.
Defined.

(** X23: a prefix named in the preferences reaches the written
    [toolchain] variable normalised, on every target that does not take
    the Android branch and provided the base-class [build_toolchain]
    leaves the prefix alone: unchanged when it is empty or already ends
    in ['/'] or ['\'], with [os.sep] appended otherwise. *)
Theorem prefs_prefix_written base_parse super base_write arflags os
    self (prefs : preferences) clangprefs prefix parsed base built
    writer writer' :
  prefs !! name = Some clangprefs →
  clangprefs !! "toolchain" = Some prefix →
  parse_prefs base_parse self prefs = Some parsed →
  super parsed = Some base →
  toolchain base = toolchain parsed →
  is_windows (target base) = true ∨ is_android (target base) = false →
  build_toolchain super os parsed = Some built →
  write_variables base_write arflags built writer = Some writer' →
  WVariable "toolchain"
    (Scalar (if bool_decide (prefix = "")
                || endswith prefix "/" || endswith prefix "\"
             then prefix else prefix +:+ os_sep os))
  ∈ writer'.
Proof.
  unfold parse_prefs, name, build_toolchain, specialize_platform,
    write_variables.
  intros Hclang Hprefix. rewrite Hclang, Hprefix.
  destruct (base_parse self prefs) as [parsed0|]; [|done]. simpl.
  intros [= <-] Hbase Hkeep Hplatform. rewrite Hbase. simpl.
  simpl in Hkeep.
  assert (∃ mid, (if is_windows (target base)
                  then Some (build_windows_toolchain base)
                  else if is_android (target base)
                       then build_android_toolchain os base else Some base)
                 = Some mid ∧ toolchain mid = prefix) as (mid & Hsome & Hmid).
  { destruct (is_windows (target base)); [by eexists|].
    destruct Hplatform as [? | ->]; [done|]. by eexists. }
  rewrite Hsome. simpl. intros [= <-].
  destruct (base_write _ writer) as [writer0|]; [|done]. simpl.
  intros [= <-]. apply elem_of_app. right.
  apply list_elem_of_lookup. exists 0. simpl. do 3 f_equal.
  unfold normalize_toolchain. rewrite Hmid.
  case_bool_decide; simpl; [done|].
  destruct (endswith prefix "/"); simpl; [done|].
  destruct (endswith prefix "\"); simpl; done.
Qed.

Lemma prefs_prefix_written_witness :
  WVariable "toolchain" (Scalar "/opt/llvm/")
  ∈ default []
      (write_variables idle_writer_method (λ _, [])
         (set_toolchain "/opt/llvm/" (sample_toolchain generic_platform ""))
         []).
Proof.
  apply (prefs_prefix_written idle_parse_prefs Some idle_writer_method (λ _, [])
           posix_os (sample_toolchain generic_platform "") sample_preferences
           {[ "toolchain" := "/opt/llvm" ]} "/opt/llvm"
           (set_toolchain "/opt/llvm" (sample_toolchain generic_platform ""))
           (set_toolchain "/opt/llvm" (sample_toolchain generic_platform ""))
           (set_toolchain "/opt/llvm/" (sample_toolchain generic_platform ""))
           []).
  - vm_compute; reflexivity.
  - vm_compute; reflexivity.
  - vm_compute; reflexivity.
  - reflexivity.
  - reflexivity.
  - right. reflexivity.
  - reflexivity.
  - reflexivity.
Defined.

(** ** Library flags *)

(** X24: [make_libs] loses nothing of a list: two library lists with the
    same flags are the same list. *)
Theorem make_libs_inj libs1 libs2 :
  make_libs (Some libs1) = make_libs (Some libs2) → libs1 = libs2.
Proof.
  unfold make_libs. intros Heq.
  by apply (inj (fmap (String.app "-l"))) in Heq.
Qed.

Lemma make_libs_inj_witness : ["m"; "gcc"] = ["m"; "gcc"].
Proof. apply make_libs_inj. reflexivity. Defined.
